(** * Delta-v / staging report of [RocketTelemetry.get_delta_v_status]

    Shallow embedding of
    [src/server/src/utils/krpc_module/rocket_telemetry.py], lines 183-263.

    Numbers.  Python's [float] is modelled by the real numbers [R]: the
    properties below are about the arithmetic the code writes down, not about
    binary64 rounding.  What Python does that real arithmetic does not is kept
    explicit: [/] raises [ZeroDivisionError] on a zero divisor, [math.log]
    raises [ValueError] outside its domain, and list indexing raises
    [IndexError] out of range.  A computation that can raise returns a
    [result]. *)

From Stdlib Require String.
From Stdlib Require Import Reals Lra Lia List ZArith Bool.
Import ListNotations.
Import String.StringSyntax.
Delimit Scope string_scope with string.

Local Open Scope R_scope.

(** ** Exceptions and the error monad *)

Inductive exn : Set :=
| ZeroDivisionError
| ValueError
| IndexError.

Inductive result (A : Type) : Type :=
| Ok (a : A)
| Raise (e : exn).

Arguments Ok {A} a.
Arguments Raise {A} e.

Definition bind {A B : Type} (m : result A) (k : A -> result B) : result B :=
  match m with
  | Ok a => k a
  | Raise e => Raise e
  end.

Notation "x <- m ;; k" := (bind m (fun x => k))
  (at level 61, m at next level, right associativity).

Definition returns {A : Type} (m : result A) : Prop := exists a, m = Ok a.

(** ** Python primitives *)

(** [a / b] on floats. *)
Definition py_div (a b : R) : result R :=
  if Req_dec_T b 0 then Raise ZeroDivisionError else Ok (a / b).

(** [math.log(x)]. *)
Definition py_log (x : R) : result R :=
  if Rlt_dec 0 x then Ok (ln x) else Raise ValueError.

(** [x <= y] as a Python condition. *)
Definition py_le (x y : R) : bool :=
  if Rle_dec x y then true else false.

(** [sum(xs)]: the accumulator starts at [0] and the items are added from
    left to right. *)
Definition py_sum (xs : list R) : R := fold_left Rplus xs 0.

(** [xs[k]] for an integer [k]: a negative index counts from the end, and an
    index outside [-len(xs) .. len(xs) - 1] raises [IndexError]. *)
Definition py_getitem {A : Type} (xs : list A) (k : Z) : result A :=
  let n := Z.of_nat (length xs) in
  let j := if (k <? 0)%Z then (k + n)%Z else k in
  if (j <? 0)%Z then Raise IndexError
  else match nth_error xs (Z.to_nat j) with
       | Some x => Ok x
       | None => Raise IndexError
       end.

(** [xs[-1] if xs else d]. *)
Definition py_last_or {A B : Type} (f : A -> B) (xs : list A) (d : B) : result B :=
  match xs with
  | [] => Ok d
  | _ :: _ => x <- py_getitem xs (-1) ;; Ok (f x)
  end.

(** ** The two helpers of [BaseRocket] *)

Module BaseRocket.

(** The standard-gravity constant of the rocket equation. *)
Definition g0 : R := 9.80665.

(** Modelled from the spec: [BaseRocket.calculate_delta_v], defined in
    [base_rocket.py], which is not among the sources.  Section 4.2: the
    rocket equation [isp * g0 * ln(startMass / (startMass - fuelMass))],
    and [0.0] when [fuelMass <= 0], [startMass - fuelMass <= 0] or
    [isp <= 0]. *)
Definition calculate_delta_v (isp fuel_mass start_mass : R) : result R :=
  if py_le fuel_mass 0 || py_le (start_mass - fuel_mass) 0 || py_le isp 0
  then Ok 0
  else
    ratio <- py_div start_mass (start_mass - fuel_mass) ;;
    l <- py_log ratio ;;
    Ok (isp * g0 * l).

(** Modelled from the spec: [BaseRocket.burn_time_estimation], defined in
    [base_rocket.py], which is not among the sources.  Section 4.3: mass
    flow rate [thrust / (isp * g0)], burn time [fuelMass / massFlowRate],
    and [0.0] when [thrust <= 0] or [isp <= 0]. *)
Definition burn_time_estimation (isp fuel_mass thrust : R) : result R :=
  if py_le thrust 0 || py_le isp 0
  then Ok 0
  else
    mass_flow_rate <- py_div thrust (isp * g0) ;;
    py_div fuel_mass mass_flow_rate.

End BaseRocket.

(** ** Data *)

(** A propellant of an engine; the report reads only
    [total_resource_available]. *)
Record Propellant : Type := mkPropellant {
  total_resource_available : R
}.

(** One dict of [get_all_engines_status]: the keys [get_delta_v_status]
    reads, and the other thrust and impulse keys of the same dict.  The
    remaining keys (tag, name, throttle, temperatures, ...) are not read by
    the report. *)
Module Engine.
Record t : Type := mk {
  stage : Z;
  thrust : R;
  available_thrust : R;
  max_thrust : R;
  max_thrust_at : R;
  max_vacuum_thrust : R;
  isp : R;
  specific_impulse_at : R;
  vacuum_specific_impulse : R;
  propellants : list Propellant
}.
End Engine.

(** One dict of [delta_v_list], with the keys of lines 234-246. *)
Module Entry.
Record t : Type := mk {
  stage : Z;
  start_mass : R;
  end_mass : R;
  burned_mass : R;
  max_thrust : R;
  twr : R;
  slt : R;
  isp : R;
  atom_delta_v : R;
  vac_delta_v : R;
  time : R
}.
End Entry.

(** The dict returned at lines 257-263. *)
Module Report.
Record t : Type := mk {
  stage_delta_v_atom : R;
  stage_delta_v_vac : R;
  total_delta_v_atom : R;
  total_delta_v_vac : R;
  delta_v_list : list Entry.t
}.
End Report.

(** What [get_delta_v_status] reads from [self]: the masses of the three
    [RocketStage] groups and the list [get_all_engines_status()] returns. *)
Record RocketTelemetry : Type := mkRocketTelemetry {
  satellite_bus_mass : R;
  first_stage_mass : R;
  second_stage_mass : R;
  engines : list Engine.t
}.

(** ** [get_delta_v_status] *)

Section DeltaVStatus.

(** [self.calculate_delta_v] and [self.burn_time_estimation] are inherited
    from [BaseRocket]; the report is modelled for any implementation of
    them, raising or not. *)
Variable calculate_delta_v : R -> R -> R -> result R.
Variable burn_time_estimation : R -> R -> R -> result R.

(** Lines 206-213. *)
Definition stages_start_mass (self : RocketTelemetry) : list R :=
  let payload_mass := satellite_bus_mass self in
  let first_stage_mass := first_stage_mass self in
  let second_stage_mass := second_stage_mass self in
  [ payload_mass + first_stage_mass;
    payload_mass + first_stage_mass + second_stage_mass ].

(** The body of the loop, lines 220-247, for the engine at position [i]. *)
Definition delta_v_entry (stages_start_mass : list R) (i : nat)
    (engine : Engine.t) : result Entry.t :=
  start_mass <- py_getitem stages_start_mass
      (Z.min (Z.of_nat i) (Z.of_nat (length stages_start_mass) - 1)) ;;
  let max_vac_thrust := Engine.max_vacuum_thrust engine in
  let max_thrust := Engine.max_thrust engine in
  let fuel_mass :=
    py_sum (map total_resource_available (Engine.propellants engine)) in
  let vac_isp := Engine.vacuum_specific_impulse engine in
  let atom_isp := Engine.specific_impulse_at engine in
  slt <- py_div max_thrust (start_mass * 9.81) ;;
  twr <- py_div max_vac_thrust (start_mass * 9.81) ;;
  vac_delta_v <- calculate_delta_v vac_isp fuel_mass start_mass ;;
  atom_delta_v <- calculate_delta_v atom_isp fuel_mass start_mass ;;
  burn_time <- burn_time_estimation atom_isp fuel_mass max_thrust ;;
  let end_mass := start_mass - fuel_mass in
  Ok {| Entry.stage := Engine.stage engine;
        Entry.start_mass := start_mass;
        Entry.end_mass := end_mass;
        Entry.burned_mass := fuel_mass;
        Entry.max_thrust := max_vac_thrust;
        Entry.twr := twr;
        Entry.slt := slt;
        Entry.isp := atom_isp;
        Entry.atom_delta_v := atom_delta_v;
        Entry.vac_delta_v := vac_delta_v;
        Entry.time := burn_time |}.

(** [for i, engine in enumerate(engines)], started at position [i] with the
    entries appended so far. *)
Fixpoint enumerate_engines (stages_start_mass : list R) (i : nat)
    (engines : list Engine.t) (delta_v_list : list Entry.t)
    : result (list Entry.t) :=
  match engines with
  | [] => Ok delta_v_list
  | engine :: rest =>
      entry <- delta_v_entry stages_start_mass i engine ;;
      enumerate_engines stages_start_mass (S i) rest (delta_v_list ++ [entry])
  end.

(** Lines 217-263, for a given list of stage start masses. *)
Definition build_report (stages_start_mass : list R)
    (engines : list Engine.t) : result Report.t :=
  delta_v_list <- enumerate_engines stages_start_mass 0 engines [] ;;
  let total_delta_v_atom := py_sum (map Entry.atom_delta_v delta_v_list) in
  let total_delta_v_vac := py_sum (map Entry.vac_delta_v delta_v_list) in
  stage_delta_v_atom <- py_last_or Entry.atom_delta_v delta_v_list 0 ;;
  stage_delta_v_vac <- py_last_or Entry.vac_delta_v delta_v_list 0 ;;
  Ok {| Report.stage_delta_v_atom := stage_delta_v_atom;
        Report.stage_delta_v_vac := stage_delta_v_vac;
        Report.total_delta_v_atom := total_delta_v_atom;
        Report.total_delta_v_vac := total_delta_v_vac;
        Report.delta_v_list := delta_v_list |}.

Definition get_delta_v_status (self : RocketTelemetry) : result Report.t :=
  build_report (stages_start_mass self) (engines self).

End DeltaVStatus.

(** ** Vocabulary of the specification *)

(** The sum of a field over a list of entries, as a mathematical sum. *)
Fixpoint sum_over {A : Type} (f : A -> R) (xs : list A) : R :=
  match xs with
  | [] => 0
  | x :: rest => f x + sum_over f rest
  end.

(** The structural stages of the vehicle in ignition order, bottom first. *)
Definition stage_masses (self : RocketTelemetry) : list R :=
  [ first_stage_mass self; second_stage_mass self ].

(** Section 4.1 in the specification's words: the payload plus every stage
    from stage [i] to the top of the stack. *)
Definition mass_from_stage_to_top (self : RocketTelemetry) (i : nat) : R :=
  satellite_bus_mass self + sum_over id (skipn i (stage_masses self)).

(** The payload plus every stage from the bottom of the stack up to and
    including stage [i]. *)
Definition mass_up_to_stage (self : RocketTelemetry) (i : nat) : R :=
  satellite_bus_mass self + sum_over id (firstn (S i) (stage_masses self)).

(** The propellant mass the loop body computes for an engine, line 223. *)
Definition fuel_mass_of (engine : Engine.t) : R :=
  py_sum (map total_resource_available (Engine.propellants engine)).

(** Each element is strictly greater than the next one. *)
Fixpoint strictly_decreasing (xs : list R) : Prop :=
  match xs with
  | [] => True
  | x :: rest =>
      match rest with
      | [] => True
      | y :: _ => y < x /\ strictly_decreasing rest
      end
  end.

(** Each element is at most the next one. *)
Fixpoint non_decreasing (xs : list R) : Prop :=
  match xs with
  | [] => True
  | x :: rest =>
      match rest with
      | [] => True
      | y :: _ => x <= y /\ non_decreasing rest
      end
  end.

(** ** Sample inputs *)

(** An engine of stage [1] with 1000 kg of propellant in two tanks,
    100 kN of thrust at the current pressure and 120 kN in vacuum. *)
Definition sample_engine : Engine.t :=
  {| Engine.stage := 1;
     Engine.thrust := 0;
     Engine.available_thrust := 100000;
     Engine.max_thrust := 100000;
     Engine.max_thrust_at := 100000;
     Engine.max_vacuum_thrust := 120000;
     Engine.isp := 300;
     Engine.specific_impulse_at := 300;
     Engine.vacuum_specific_impulse := 320;
     Engine.propellants := [ mkPropellant 600; mkPropellant 400 ] |}.

(** A vehicle with a 1000 kg payload, a 4000 kg first stage, a 2000 kg
    second stage and the given engines. *)
Definition sample_vessel (engines : list Engine.t) : RocketTelemetry :=
  {| satellite_bus_mass := 1000;
     first_stage_mass := 4000;
     second_stage_mass := 2000;
     engines := engines |}.

(** A vehicle whose payload and first-stage groups hold no part: both
    masses are [0], as for tags that match nothing.  One engine. *)
Definition untagged_vessel : RocketTelemetry :=
  {| satellite_bus_mass := 0;
     first_stage_mass := 0;
     second_stage_mass := 2000;
     engines := [ sample_engine ] |}.

(** The report of an empty engine list. *)
Definition empty_report : Report.t :=
  {| Report.stage_delta_v_atom := 0;
     Report.stage_delta_v_vac := 0;
     Report.total_delta_v_atom := 0;
     Report.total_delta_v_vac := 0;
     Report.delta_v_list := [] |}.

(** ** Simulator objects and the other reports *)

(** [x in xs] for a list of strings. *)
Definition py_in (x : String.string) (xs : list String.string) : bool :=
  existsb (String.eqb x) xs.

(** The truth value of a float in a condition: only [0.0] is false. *)
Definition py_truthy (x : R) : bool :=
  if Req_dec_T x 0 then false else true.

(** [for x in xs: acc.append(body(x))], with the items appended so far. *)
Fixpoint for_each_append {A B : Type} (body : A -> result B) (xs : list A)
    (acc : list B) : result (list B) :=
  match xs with
  | [] => Ok acc
  | x :: rest =>
      item <- body x ;;
      for_each_append body rest (acc ++ [item])
  end.

(** A [SpaceCenter.Engine] of the simulator with the fields of its [part]
    that [get_all_engines_status] reads.  The three [..._at] methods take a
    pressure in atmospheres. *)
Module KrpcEngine.
Record t : Type := mk {
  tag : String.string;
  stage : Z;
  name : String.string;
  active : bool;
  thrust : R;
  available_thrust : R;
  available_thrust_at : R -> R;
  max_thrust : R;
  max_thrust_at : R -> R;
  max_vacuum_thrust : R;
  thrust_limit : R;
  specific_impulse : R;
  specific_impulse_at : R -> R;
  vacuum_specific_impulse : R;
  propellant_names : list String.string;
  propellant_ratios : list (String.string * R);
  propellants : list Propellant;
  throttle : R;
  temperature : R;
  max_temperature : R;
  skin_temperature : R;
  max_skin_temperature : R
}.
End KrpcEngine.

(** The dict of lines 57-81, with all its keys. *)
Module EngineStatus.
Record t : Type := mk {
  tag : String.string;
  stage : Z;
  name : String.string;
  active : bool;
  thrust : R;
  available_thrust : R;
  available_thrust_at : R;
  max_thrust : R;
  max_thrust_at : R;
  max_vacuum_thrust : R;
  thrust_limit : R;
  isp : R;
  specific_impulse_at : R;
  vacuum_specific_impulse : R;
  propellant_names : list String.string;
  propellant_ratios : list (String.string * R);
  propellants : list Propellant;
  throttle : R;
  temperature : R;
  max_temperature : R;
  skin_temperature : R;
  max_skin_temperature : R
}.
End EngineStatus.

(** What [get_all_engines_status] reads from [self.vessel]: the static
    pressure of [flight()], in pascals, and [parts.engines]. *)
Record Vessel : Type := mkVessel {
  static_pressure : R;
  parts_engines : list KrpcEngine.t
}.

(** The body of the loop of [get_all_engines_status], lines 53-81. *)
Definition engine_status (vessel : Vessel) (engine : KrpcEngine.t)
    : result EngineStatus.t :=
  let current_pressure := static_pressure vessel in
  current_pressure_atm <- py_div current_pressure 101325 ;;
  Ok {| EngineStatus.tag := KrpcEngine.tag engine;
        EngineStatus.stage := KrpcEngine.stage engine;
        EngineStatus.name := KrpcEngine.name engine;
        EngineStatus.active := KrpcEngine.active engine;
        EngineStatus.thrust := KrpcEngine.thrust engine;
        EngineStatus.available_thrust := KrpcEngine.available_thrust engine;
        EngineStatus.available_thrust_at :=
          KrpcEngine.available_thrust_at engine current_pressure_atm;
        EngineStatus.max_thrust := KrpcEngine.max_thrust engine;
        EngineStatus.max_thrust_at :=
          KrpcEngine.max_thrust_at engine current_pressure_atm;
        EngineStatus.max_vacuum_thrust := KrpcEngine.max_vacuum_thrust engine;
        EngineStatus.thrust_limit := KrpcEngine.thrust_limit engine;
        EngineStatus.isp := KrpcEngine.specific_impulse engine;
        EngineStatus.specific_impulse_at :=
          KrpcEngine.specific_impulse_at engine current_pressure_atm;
        EngineStatus.vacuum_specific_impulse :=
          KrpcEngine.vacuum_specific_impulse engine;
        EngineStatus.propellant_names := KrpcEngine.propellant_names engine;
        EngineStatus.propellant_ratios := KrpcEngine.propellant_ratios engine;
        EngineStatus.propellants := KrpcEngine.propellants engine;
        EngineStatus.throttle := KrpcEngine.throttle engine;
        EngineStatus.temperature := KrpcEngine.temperature engine;
        EngineStatus.max_temperature := KrpcEngine.max_temperature engine;
        EngineStatus.skin_temperature := KrpcEngine.skin_temperature engine;
        EngineStatus.max_skin_temperature :=
          KrpcEngine.max_skin_temperature engine |}.

(** [get_all_engines_status], lines 50-83. *)
Definition get_all_engines_status (vessel : Vessel)
    : result (list EngineStatus.t) :=
  for_each_append (engine_status vessel) (parts_engines vessel) [].

(** The keys of an engine status that the delta-v report has in
    [Engine.t]. *)
Definition engine_of_status (status : EngineStatus.t) : Engine.t :=
  {| Engine.stage := EngineStatus.stage status;
     Engine.thrust := EngineStatus.thrust status;
     Engine.available_thrust := EngineStatus.available_thrust status;
     Engine.max_thrust := EngineStatus.max_thrust status;
     Engine.max_thrust_at := EngineStatus.max_thrust_at status;
     Engine.max_vacuum_thrust := EngineStatus.max_vacuum_thrust status;
     Engine.isp := EngineStatus.isp status;
     Engine.specific_impulse_at := EngineStatus.specific_impulse_at status;
     Engine.vacuum_specific_impulse :=
       EngineStatus.vacuum_specific_impulse status;
     Engine.propellants := EngineStatus.propellants status |}.

(** [get_delta_v_status] with the call of line 215 written out: the three
    group masses are read, the engine statuses are collected from the
    vessel, and the report is built from them. *)
Definition get_delta_v_status_of_vessel
    (calculate_delta_v burn_time_estimation : R -> R -> R -> result R)
    (payload_mass first_stage_mass second_stage_mass : R) (vessel : Vessel)
    : result Report.t :=
  engines <- get_all_engines_status vessel ;;
  get_delta_v_status calculate_delta_v burn_time_estimation
    (mkRocketTelemetry payload_mass first_stage_mass second_stage_mass
       (map engine_of_status engines)).

(** [part.resources]: the resource names and the two queries by name. *)
Module Resources.
Record t : Type := mk {
  names : list String.string;
  amount : String.string -> R;
  max : String.string -> R
}.
End Resources.

(** A part of the satellite bus, with the fields
    [get_satellite_bus_status] reads. *)
Module Part.
Record t : Type := mk {
  name : String.string;
  title : String.string;
  shielded : bool;
  temperature : R;
  max_temperature : R;
  skin_temperature : R;
  max_skin_temperature : R;
  resources : Resources.t
}.
End Part.

(** The dict of lines 308-319. *)
Module PartInfo.
Record t : Type := mk {
  name : String.string;
  title : String.string;
  shielded : bool;
  temperature : R;
  max_temperature : R;
  skin_temperature : R;
  max_skin_temperature : R;
  thermal_percentage : R;
  current_charge : R;
  max_charge : R
}.
End PartInfo.

(** What [get_satellite_bus_status] returns: the list of part dicts, or the
    dict with the single key [error]. *)
Inductive BusStatus : Type :=
| PartsInfo (parts_info : list PartInfo.t)
| ErrorDict (error : String.string).

(** The body of the loop of [get_satellite_bus_status], lines 308-319. *)
Definition part_info (part : Part.t) : result PartInfo.t :=
  thermal_percentage <-
    (if py_truthy (Part.max_temperature part)
     then
       ratio <- py_div (Part.temperature part) (Part.max_temperature part) ;;
       Ok (ratio * 100)
     else Ok 0) ;;
  let current_charge :=
    if py_in "ElectricCharge"%string (Resources.names (Part.resources part))
    then Resources.amount (Part.resources part) "ElectricCharge"%string
    else 0 in
  let max_charge :=
    if py_in "ElectricCharge"%string (Resources.names (Part.resources part))
    then Resources.max (Part.resources part) "ElectricCharge"%string
    else 0 in
  Ok {| PartInfo.name := Part.name part;
        PartInfo.title := Part.title part;
        PartInfo.shielded := Part.shielded part;
        PartInfo.temperature := Part.temperature part;
        PartInfo.max_temperature := Part.max_temperature part;
        PartInfo.skin_temperature := Part.skin_temperature part;
        PartInfo.max_skin_temperature := Part.max_skin_temperature part;
        PartInfo.thermal_percentage := thermal_percentage;
        PartInfo.current_charge := current_charge;
        PartInfo.max_charge := max_charge |}.

(** [get_satellite_bus_status], lines 306-322, for the parts of
    [self.satellite_bus]. *)
Definition get_satellite_bus_status (parts : list Part.t) : result BusStatus :=
  parts_info <- for_each_append part_info parts [] ;;
  match parts_info with
  | [] => Ok (ErrorDict "Parts not found"%string)
  | _ :: _ => Ok (PartsInfo parts_info)
  end.

(** ** More sample inputs *)

(** A simulator engine whose thrust and impulse fall linearly with the
    pressure. *)
Definition sample_krpc_engine : KrpcEngine.t :=
  {| KrpcEngine.tag := "first_stage"%string;
     KrpcEngine.stage := 1;
     KrpcEngine.name := "liquidEngine"%string;
     KrpcEngine.active := false;
     KrpcEngine.thrust := 0;
     KrpcEngine.available_thrust := 100000;
     KrpcEngine.available_thrust_at := fun p => 120000 - 20000 * p;
     KrpcEngine.max_thrust := 100000;
     KrpcEngine.max_thrust_at := fun p => 120000 - 20000 * p;
     KrpcEngine.max_vacuum_thrust := 120000;
     KrpcEngine.thrust_limit := 1;
     KrpcEngine.specific_impulse := 300;
     KrpcEngine.specific_impulse_at := fun p => 320 - 20 * p;
     KrpcEngine.vacuum_specific_impulse := 320;
     KrpcEngine.propellant_names := [ "LiquidFuel"%string; "Oxidizer"%string ];
     KrpcEngine.propellant_ratios :=
       [ ("LiquidFuel"%string, 0.45); ("Oxidizer"%string, 0.55) ];
     KrpcEngine.propellants := [ mkPropellant 600; mkPropellant 400 ];
     KrpcEngine.throttle := 0;
     KrpcEngine.temperature := 300;
     KrpcEngine.max_temperature := 2000;
     KrpcEngine.skin_temperature := 300;
     KrpcEngine.max_skin_temperature := 2000 |}.

(** A vessel on the pad at one atmosphere with two such engines. *)
Definition sample_krpc_vessel : Vessel :=
  {| static_pressure := 101325;
     parts_engines := [ sample_krpc_engine; sample_krpc_engine ] |}.

(** A battery at 300 K of 1200 K, holding 80 of 100 units of charge. *)
Definition sample_battery : Part.t :=
  {| Part.name := "batteryPack"%string;
     Part.title := "Z-100 Rechargeable Battery Pack"%string;
     Part.shielded := false;
     Part.temperature := 300;
     Part.max_temperature := 1200;
     Part.skin_temperature := 310;
     Part.max_skin_temperature := 1200;
     Part.resources :=
       {| Resources.names := [ "ElectricCharge"%string ];
          Resources.amount := fun _ => 80;
          Resources.max := fun _ => 100 |} |}.

(** A part without resources whose maximum temperature reads [0]. *)
Definition sample_cold_part : Part.t :=
  {| Part.name := "strut"%string;
     Part.title := "Strut"%string;
     Part.shielded := true;
     Part.temperature := 0;
     Part.max_temperature := 0;
     Part.skin_temperature := 0;
     Part.max_skin_temperature := 0;
     Part.resources :=
       {| Resources.names := [];
          Resources.amount := fun _ => 0;
          Resources.max := fun _ => 0 |} |}.

(** ** Facts about the primitives *)

Lemma bind_Ok {A B : Type} (m : result A) (k : A -> result B) (b : B) :
  bind m k = Ok b -> exists a, m = Ok a /\ k a = Ok b.
Proof.
  destruct m as [a | e]; simpl; intros H.
  - exists a; split; [reflexivity | exact H].
  - discriminate H.
Qed.

Lemma py_div_nonzero (a b : R) : b <> 0 -> py_div a b = Ok (a / b).
Proof.
  intros Hb. unfold py_div. destruct (Req_dec_T b 0) as [E | _].
  - contradiction.
  - reflexivity.
Qed.

Lemma py_div_zero (a b : R) : b = 0 -> py_div a b = Raise ZeroDivisionError.
Proof.
  intros Hb. unfold py_div. destruct (Req_dec_T b 0) as [_ | N].
  - reflexivity.
  - contradiction.
Qed.

Lemma py_div_Ok (a b q : R) : py_div a b = Ok q -> b <> 0 /\ q = a / b.
Proof.
  unfold py_div. destruct (Req_dec_T b 0) as [E | N]; intros H.
  - discriminate H.
  - injection H as <-. split; [exact N | reflexivity].
Qed.

Lemma py_log_pos (x : R) : 0 < x -> py_log x = Ok (ln x).
Proof.
  intros Hx. unfold py_log. destruct (Rlt_dec 0 x) as [_ | N].
  - reflexivity.
  - contradiction.
Qed.

Lemma py_le_true (x y : R) : x <= y -> py_le x y = true.
Proof.
  intros H. unfold py_le. destruct (Rle_dec x y); [reflexivity | contradiction].
Qed.

Lemma py_le_false (x y : R) : y < x -> py_le x y = false.
Proof.
  intros H. unfold py_le. destruct (Rle_dec x y); [lra | reflexivity].
Qed.

Lemma py_sum_from (xs : list R) (a : R) :
  fold_left Rplus xs a = a + sum_over id xs.
Proof.
  revert a. induction xs as [| x rest IH]; intros a; simpl.
  - lra.
  - rewrite IH. unfold id. lra.
Qed.

Lemma py_sum_map {A : Type} (f : A -> R) (xs : list A) :
  py_sum (map f xs) = sum_over f xs.
Proof.
  unfold py_sum. rewrite py_sum_from.
  induction xs as [| x rest IH]; simpl in *; [lra |].
  unfold id at 1. lra.
Qed.

Lemma py_getitem_clamp {A : Type} (xs : list A) (i : nat) :
  xs <> [] ->
  py_getitem xs (Z.min (Z.of_nat i) (Z.of_nat (length xs) - 1)) =
  match nth_error xs (Nat.min i (length xs - 1)) with
  | Some x => Ok x
  | None => Raise IndexError
  end.
Proof.
  intros Hne. unfold py_getitem.
  assert (Hlen : (0 < length xs)%nat).
  { destruct xs; [contradiction | simpl; lia]. }
  set (k := Z.min (Z.of_nat i) (Z.of_nat (length xs) - 1)).
  assert (Hk : k = Z.of_nat (Nat.min i (length xs - 1))) by (subst k; lia).
  destruct (Z.ltb_spec k 0) as [Hneg | Hnn]; [lia |].
  destruct (Z.ltb_spec k 0) as [Hneg | _]; [lia |].
  rewrite Hk, Nat2Z.id. reflexivity.
Qed.

Lemma py_getitem_clamp_Ok {A : Type} (xs : list A) (i : nat) (x : A) :
  py_getitem xs (Z.min (Z.of_nat i) (Z.of_nat (length xs) - 1)) = Ok x ->
  nth_error xs (Nat.min i (length xs - 1)) = Some x.
Proof.
  destruct xs as [| y ys].
  - unfold py_getitem. simpl length.
    replace (Z.min (Z.of_nat i) (Z.of_nat 0 - 1)) with (-1)%Z by lia.
    cbn. discriminate.
  - rewrite py_getitem_clamp by discriminate.
    destruct (nth_error (y :: ys) (Nat.min i (length (y :: ys) - 1))) as [z |];
      intros H; [injection H as H; rewrite H; reflexivity | discriminate H].
Qed.

Lemma py_getitem_clamp_returns {A : Type} (xs : list A) (i : nat) :
  xs <> [] ->
  returns (py_getitem xs (Z.min (Z.of_nat i) (Z.of_nat (length xs) - 1))).
Proof.
  intros Hne. rewrite py_getitem_clamp by exact Hne.
  destruct (nth_error xs (Nat.min i (length xs - 1))) as [x |] eqn:E.
  - exists x; reflexivity.
  - apply nth_error_None in E. destruct xs; [contradiction | simpl in E; lia].
Qed.

Lemma py_getitem_last {A : Type} (xs : list A) (x : A) :
  py_getitem (xs ++ [x]) (-1) = Ok x.
Proof.
  unfold py_getitem. rewrite length_app. simpl length.
  change (-1 <? 0)%Z with true. cbv iota.
  destruct (Z.ltb_spec (-1 + Z.of_nat (length xs + 1)) 0) as [Hneg | _]; [lia |].
  replace (Z.to_nat (-1 + Z.of_nat (length xs + 1))) with (length xs) by lia.
  rewrite nth_error_app2 by lia. rewrite Nat.sub_diag. reflexivity.
Qed.

Lemma py_last_or_nil {A B : Type} (f : A -> B) (d : B) :
  py_last_or f [] d = Ok d.
Proof. reflexivity. Qed.

Lemma py_last_or_snoc {A B : Type} (f : A -> B) (xs : list A) (x : A) (d : B) :
  py_last_or f (xs ++ [x]) d = Ok (f x).
Proof.
  unfold py_last_or. destruct (xs ++ [x]) as [| y ys] eqn:E.
  - destruct xs; discriminate E.
  - rewrite <- E, py_getitem_last. reflexivity.
Qed.

(** ** Facts about the loop and the report *)

Section DeltaVFacts.

Variable calculate_delta_v : R -> R -> R -> result R.
Variable burn_time_estimation : R -> R -> R -> result R.

#[local] Abbreviation delta_v_entry := (delta_v_entry calculate_delta_v burn_time_estimation).
#[local] Abbreviation enumerate_engines :=
  (enumerate_engines calculate_delta_v burn_time_estimation).
#[local] Abbreviation build_report := (build_report calculate_delta_v burn_time_estimation).

(** What an entry the loop body returns is made of. *)
Lemma delta_v_entry_Ok (ssm : list R) (i : nat) (engine : Engine.t)
    (d : Entry.t) :
  delta_v_entry ssm i engine = Ok d ->
  nth_error ssm (Nat.min i (length ssm - 1)) = Some (Entry.start_mass d) /\
  Entry.start_mass d * 9.81 <> 0 /\
  Entry.stage d = Engine.stage engine /\
  Entry.burned_mass d = fuel_mass_of engine /\
  Entry.end_mass d = Entry.start_mass d - fuel_mass_of engine /\
  Entry.max_thrust d = Engine.max_vacuum_thrust engine /\
  Entry.twr d = Engine.max_vacuum_thrust engine / (Entry.start_mass d * 9.81) /\
  Entry.slt d = Engine.max_thrust engine / (Entry.start_mass d * 9.81) /\
  Entry.isp d = Engine.specific_impulse_at engine /\
  calculate_delta_v (Engine.vacuum_specific_impulse engine)
    (fuel_mass_of engine) (Entry.start_mass d) = Ok (Entry.vac_delta_v d) /\
  calculate_delta_v (Engine.specific_impulse_at engine)
    (fuel_mass_of engine) (Entry.start_mass d) = Ok (Entry.atom_delta_v d) /\
  burn_time_estimation (Engine.specific_impulse_at engine)
    (fuel_mass_of engine) (Engine.max_thrust engine) = Ok (Entry.time d).
Proof.
  unfold delta_v_entry. intros H.
  apply bind_Ok in H as (start_mass & Hget & H).
  apply bind_Ok in H as (slt & Hslt & H).
  apply bind_Ok in H as (twr & Htwr & H).
  apply bind_Ok in H as (vac & Hvac & H).
  apply bind_Ok in H as (atom & Hatom & H).
  apply bind_Ok in H as (burn & Hburn & H).
  injection H as <-. cbn.
  apply py_getitem_clamp_Ok in Hget.
  apply py_div_Ok in Hslt as (Hnz & ->).
  apply py_div_Ok in Htwr as (_ & ->).
  unfold fuel_mass_of. repeat split; assumption.
Qed.

(** The loop appends one entry per engine, in order, and the entry of the
    engine at offset [k] is the loop body at position [i + k]. *)
Lemma enumerate_engines_Ok (ssm : list R) (engines : list Engine.t) :
  forall (i : nat) (acc l : list Entry.t),
  enumerate_engines ssm i engines acc = Ok l ->
  exists ds,
    l = acc ++ ds /\
    length ds = length engines /\
    forall k d, nth_error ds k = Some d ->
      exists engine, nth_error engines k = Some engine /\
                     delta_v_entry ssm (i + k) engine = Ok d.
Proof.
  induction engines as [| engine rest IH]; intros i acc l H; simpl in H.
  - injection H as <-. exists []. rewrite app_nil_r.
    split; [reflexivity | split; [reflexivity |]].
    intros [| k] d Hd; discriminate Hd.
  - apply bind_Ok in H as (entry & Hentry & H).
    apply IH in H as (ds & -> & Hlen & Hds).
    exists (entry :: ds). rewrite <- app_assoc. simpl.
    split; [reflexivity | split; [now rewrite Hlen |]].
    intros [| k] d Hd; simpl in Hd.
    + injection Hd as <-. exists engine. rewrite Nat.add_0_r.
      split; [reflexivity | exact Hentry].
    + apply Hds in Hd as (e & He & Hb). exists e.
      replace (i + S k)%nat with (S i + k)%nat by lia.
      split; [exact He | exact Hb].
Qed.

(** The loop returns as soon as the loop body does at every position. *)
Lemma enumerate_engines_returns (ssm : list R) (engines : list Engine.t) :
  forall (i : nat) (acc : list Entry.t),
  (forall k engine, nth_error engines k = Some engine ->
     returns (delta_v_entry ssm (i + k) engine)) ->
  returns (enumerate_engines ssm i engines acc).
Proof.
  induction engines as [| engine rest IH]; intros i acc Hbody; simpl.
  - exists acc. reflexivity.
  - destruct (Hbody 0%nat engine eq_refl) as (entry & Hentry).
    rewrite Nat.add_0_r in Hentry. rewrite Hentry. simpl.
    apply IH. intros k e He.
    replace (S i + k)%nat with (i + S k)%nat by lia.
    apply Hbody. exact He.
Qed.

(** The loop raises what the loop body raises at the first engine. *)
Lemma enumerate_engines_raise_first (ssm : list R) (i : nat)
    (engine : Engine.t) (rest : list Engine.t) (acc : list Entry.t) (e : exn) :
  delta_v_entry ssm i engine = Raise e ->
  enumerate_engines ssm i (engine :: rest) acc = Raise e.
Proof. intros H. simpl. rewrite H. reflexivity. Qed.

(** A report that is returned: its list is the loop's, its totals are the
    sums over that list, and its stage figures are read off the last
    entry. *)
Lemma build_report_Ok (ssm : list R) (engines : list Engine.t) (r : Report.t) :
  build_report ssm engines = Ok r ->
  enumerate_engines ssm 0 engines [] = Ok (Report.delta_v_list r) /\
  Report.total_delta_v_atom r =
    py_sum (map Entry.atom_delta_v (Report.delta_v_list r)) /\
  Report.total_delta_v_vac r =
    py_sum (map Entry.vac_delta_v (Report.delta_v_list r)) /\
  py_last_or Entry.atom_delta_v (Report.delta_v_list r) 0 =
    Ok (Report.stage_delta_v_atom r) /\
  py_last_or Entry.vac_delta_v (Report.delta_v_list r) 0 =
    Ok (Report.stage_delta_v_vac r).
Proof.
  unfold build_report. intros H.
  apply bind_Ok in H as (l & Hl & H).
  apply bind_Ok in H as (sa & Hsa & H).
  apply bind_Ok in H as (sv & Hsv & H).
  injection H as <-. cbn. repeat split; assumption.
Qed.

(** Entry [k] of a returned report is the loop body at engine [k]. *)
Lemma build_report_entry (ssm : list R) (engines : list Engine.t)
    (r : Report.t) :
  build_report ssm engines = Ok r ->
  length (Report.delta_v_list r) = length engines /\
  forall k d, nth_error (Report.delta_v_list r) k = Some d ->
    exists engine, nth_error engines k = Some engine /\
                   delta_v_entry ssm k engine = Ok d.
Proof.
  intros H. apply build_report_Ok in H as (Hl & _).
  apply enumerate_engines_Ok in Hl as (ds & Hds & Hlen & Hk).
  simpl in Hds. rewrite Hds. split; [exact Hlen | exact Hk].
Qed.

(** The loop body returns when the start masses are non-zero and the two
    helpers return. *)
Lemma delta_v_entry_returns (ssm : list R) (i : nat) (engine : Engine.t) :
  ssm <> [] ->
  Forall (fun m => m <> 0) ssm ->
  (forall a b c, returns (calculate_delta_v a b c)) ->
  (forall a b c, returns (burn_time_estimation a b c)) ->
  returns (delta_v_entry ssm i engine).
Proof.
  intros Hne Hnz Hcalc Hburn. unfold delta_v_entry.
  destruct (py_getitem_clamp_returns ssm i Hne) as (m & Hm).
  rewrite Hm. simpl.
  assert (Hm0 : m <> 0).
  { apply py_getitem_clamp_Ok in Hm. apply nth_error_In in Hm.
    rewrite Forall_forall in Hnz. apply Hnz. exact Hm. }
  rewrite !py_div_nonzero by lra. simpl.
  destruct (Hcalc (Engine.vacuum_specific_impulse engine)
              (py_sum (map total_resource_available (Engine.propellants engine)))
              m) as (v & ->).
  destruct (Hcalc (Engine.specific_impulse_at engine)
              (py_sum (map total_resource_available (Engine.propellants engine)))
              m) as (a & ->).
  destruct (Hburn (Engine.specific_impulse_at engine)
              (py_sum (map total_resource_available (Engine.propellants engine)))
              (Engine.max_thrust engine)) as (t & ->).
  simpl. eexists; reflexivity.
Qed.

(** The report returns as soon as the loop does. *)
Lemma build_report_returns (ssm : list R) (engines : list Engine.t) :
  returns (enumerate_engines ssm 0 engines []) ->
  returns (build_report ssm engines).
Proof.
  intros (l & Hl). unfold build_report. rewrite Hl. simpl.
  destruct l as [| d ds].
  - simpl. eexists; reflexivity.
  - destruct (@exists_last _ (d :: ds)) as (front & z & E); [discriminate |].
    rewrite E, !py_last_or_snoc. simpl. eexists; reflexivity.
Qed.

(** The report returns when the start masses are non-zero and the two
    helpers return. *)
Lemma build_report_total (ssm : list R) (engines : list Engine.t) :
  ssm <> [] ->
  Forall (fun m => m <> 0) ssm ->
  (forall a b c, returns (calculate_delta_v a b c)) ->
  (forall a b c, returns (burn_time_estimation a b c)) ->
  returns (build_report ssm engines).
Proof.
  intros Hne Hnz Hcalc Hburn. apply build_report_returns.
  apply enumerate_engines_returns. intros k engine _.
  apply delta_v_entry_returns; assumption.
Qed.

End DeltaVFacts.

(** ** Numeric bounds on the logarithm *)

(** [(1 + y) ^ n] is below [exp (n * y)]: the tangent bound [1 + y <= exp y]
    raised to the power [n]. *)
Lemma exp_pow_lower (y : R) (n : nat) :
  -1 <= y -> (1 + y) ^ n <= exp (INR n * y).
Proof.
  intros Hy. induction n as [| n IH].
  - simpl. rewrite Rmult_0_l, exp_0. lra.
  - rewrite S_INR, Rmult_plus_distr_r, Rmult_1_l, exp_plus. simpl pow.
    rewrite Rmult_comm.
    apply Rmult_le_compat.
    + apply pow_le. lra.
    + lra.
    + exact IH.
    + apply exp_ineq1_le.
Qed.

(** An upper bound of a logarithm from a power of a rational. *)
Lemma ln_lt_of_pow (x y : R) (n : nat) :
  0 < x -> -1 <= y -> x < (1 + y) ^ n -> ln x < INR n * y.
Proof.
  intros Hx Hy Hpow. apply exp_lt_inv. rewrite exp_ln by exact Hx.
  apply Rlt_le_trans with (1 := Hpow). apply exp_pow_lower. exact Hy.
Qed.

(** A lower bound of a logarithm from a power of a rational. *)
Lemma ln_gt_of_pow (x y : R) (n : nat) :
  0 < x -> y <= 1 -> / x < (1 - y) ^ n -> INR n * y < ln x.
Proof.
  intros Hx Hy Hpow. apply exp_lt_inv. rewrite exp_ln by exact Hx.
  assert (Hlow : / x < exp (- (INR n * y))).
  { apply Rlt_le_trans with (1 := Hpow).
    replace (- (INR n * y)) with (INR n * (- y)) by ring.
    replace (1 - y) with (1 + - y) by ring.
    apply exp_pow_lower. lra. }
  rewrite exp_Ropp in Hlow.
  apply Rinv_0_lt_contravar in Hlow; [| apply Rinv_0_lt_compat; exact Hx].
  rewrite !Rinv_inv in Hlow. exact Hlow.
Qed.

(** A comparison of a fraction with a power of a fraction, decided on the
    integers. *)
Lemma pow_ratio_gt (a b p q : Z) (n : nat) :
  (0 < b)%Z -> (0 < q)%Z ->
  (a * q ^ Z.of_nat n < b * p ^ Z.of_nat n)%Z ->
  IZR a / IZR b < (IZR p / IZR q) ^ n.
Proof.
  intros Hb Hq H. apply IZR_lt in H.
  rewrite !mult_IZR, <- !pow_IZR in H.
  apply IZR_lt in Hb, Hq.
  assert (Hqn : 0 < IZR q ^ n) by (apply pow_lt; exact Hq).
  unfold Rdiv at 2. rewrite Rpow_mult_distr, pow_inv.
  set (P := IZR p ^ n) in *. set (Q := IZR q ^ n) in *.
  apply Rmult_lt_reg_r with (r := IZR b * Q).
  - apply Rmult_lt_0_compat; assumption.
  - replace (IZR a / IZR b * (IZR b * Q)) with (IZR a * Q) by (field; lra).
    replace (P * / Q * (IZR b * Q)) with (IZR b * P) by (field; lra).
    exact H.
Qed.

Lemma pow_1024_below :
  (4 * 4590 ^ Z.of_nat 1024 < 5 * 4589 ^ Z.of_nat 1024)%Z.
Proof. vm_compute. reflexivity. Qed.

Lemma pow_1024_above :
  (5 * 4588 ^ Z.of_nat 1024 < 4 * 4589 ^ Z.of_nat 1024)%Z.
Proof. vm_compute. reflexivity. Qed.

(** [ln (5 / 4) = 0.22314...] to within [1e-4]. *)
Lemma ln_5_4_bounds : 1024 / 4590 < ln (5 / 4) < 1024 / 4588.
Proof.
  split.
  - replace (1024 / 4590) with (INR 1024 * (1 / 4590)).
    2:{ rewrite INR_IZR_INZ. change (Z.of_nat 1024) with 1024%Z. lra. }
    apply ln_gt_of_pow; [lra | lra |].
    replace (/ (5 / 4)) with (IZR 4 / IZR 5) by lra.
    replace (1 - 1 / 4590) with (IZR 4589 / IZR 4590) by lra.
    exact (pow_ratio_gt 4 5 4589 4590 1024 eq_refl eq_refl pow_1024_below).
  - replace (1024 / 4588) with (INR 1024 * (1 / 4588)).
    2:{ rewrite INR_IZR_INZ. change (Z.of_nat 1024) with 1024%Z. lra. }
    apply ln_lt_of_pow; [lra | lra |].
    replace (5 / 4) with (IZR 5 / IZR 4) by lra.
    replace (1 + 1 / 4588) with (IZR 4589 / IZR 4588) by lra.
    exact (pow_ratio_gt 5 4 4589 4588 1024 eq_refl eq_refl pow_1024_above).
Qed.

(** ** Facts about the helpers of [BaseRocket] *)

Lemma calculate_delta_v_guard (isp fuel_mass start_mass : R) :
  fuel_mass <= 0 \/ start_mass - fuel_mass <= 0 \/ isp <= 0 ->
  BaseRocket.calculate_delta_v isp fuel_mass start_mass = Ok 0.
Proof.
  intros H. unfold BaseRocket.calculate_delta_v.
  destruct H as [H | [H | H]]; rewrite (py_le_true _ _ H);
    rewrite ?orb_true_r; reflexivity.
Qed.

Lemma calculate_delta_v_equation (isp fuel_mass start_mass : R) :
  0 < fuel_mass -> 0 < start_mass - fuel_mass -> 0 < isp ->
  BaseRocket.calculate_delta_v isp fuel_mass start_mass =
  Ok (isp * BaseRocket.g0 * ln (start_mass / (start_mass - fuel_mass))).
Proof.
  intros Hf Hm Hi. unfold BaseRocket.calculate_delta_v.
  rewrite !py_le_false by assumption. simpl.
  rewrite py_div_nonzero by lra. simpl.
  rewrite py_log_pos; [reflexivity |].
  apply Rdiv_lt_0_compat; lra.
Qed.

Lemma burn_time_estimation_guard (isp fuel_mass thrust : R) :
  thrust <= 0 \/ isp <= 0 ->
  BaseRocket.burn_time_estimation isp fuel_mass thrust = Ok 0.
Proof.
  intros H. unfold BaseRocket.burn_time_estimation.
  destruct H as [H | H]; rewrite (py_le_true _ _ H);
    rewrite ?orb_true_r; reflexivity.
Qed.

Lemma burn_time_estimation_equation (isp fuel_mass thrust : R) :
  0 < thrust -> 0 < isp ->
  BaseRocket.burn_time_estimation isp fuel_mass thrust =
  Ok (fuel_mass * isp * BaseRocket.g0 / thrust).
Proof.
  intros Ht Hi. unfold BaseRocket.burn_time_estimation, BaseRocket.g0.
  rewrite !py_le_false by assumption. simpl.
  rewrite py_div_nonzero by lra. simpl.
  rewrite py_div_nonzero.
  - f_equal. field. lra.
  - apply Rgt_not_eq. apply Rdiv_lt_0_compat; lra.
Qed.

(** Every triple of reals falls under the guard or under the equation. *)
Lemma guard_or_not (a b c : R) :
  (a <= 0 \/ b <= 0 \/ c <= 0) \/ (0 < a /\ 0 < b /\ 0 < c).
Proof.
  destruct (Rle_lt_dec a 0); [left; left; assumption |].
  destruct (Rle_lt_dec b 0); [left; right; left; assumption |].
  destruct (Rle_lt_dec c 0); [left; right; right; assumption |].
  right. repeat split; assumption.
Qed.

Lemma calculate_delta_v_returns (isp fuel_mass start_mass : R) :
  returns (BaseRocket.calculate_delta_v isp fuel_mass start_mass).
Proof.
  destruct (guard_or_not fuel_mass (start_mass - fuel_mass) isp)
    as [Hg | (Hf & Hm & Hi)].
  - eexists. apply calculate_delta_v_guard. exact Hg.
  - eexists. apply calculate_delta_v_equation; assumption.
Qed.

Lemma burn_time_estimation_returns (isp fuel_mass thrust : R) :
  returns (BaseRocket.burn_time_estimation isp fuel_mass thrust).
Proof.
  destruct (guard_or_not thrust isp 1) as [[Hg | [Hg | Hg]] | (Ht & Hi & _)].
  - eexists. apply burn_time_estimation_guard. left. exact Hg.
  - eexists. apply burn_time_estimation_guard. right. exact Hg.
  - lra.
  - eexists. apply burn_time_estimation_equation; assumption.
Qed.

(** The sample vehicle's report is returned, whatever its engines. *)
Lemma sample_vessel_returns (engines : list Engine.t) :
  returns (get_delta_v_status BaseRocket.calculate_delta_v
             BaseRocket.burn_time_estimation (sample_vessel engines)).
Proof.
  unfold get_delta_v_status. apply build_report_total.
  - discriminate.
  - unfold stages_start_mass; simpl.
    repeat constructor; lra.
  - apply calculate_delta_v_returns.
  - apply burn_time_estimation_returns.
Qed.

(** * The claims *)

(** ** Stage start masses (C1, C8) *)

(** C1, as stated, fails: on the sample vehicle (payload 1000, first stage
    4000, second stage 2000) the start-mass sequence is [5000; 7000], while
    payload plus the stages from stage [i] to the top of the stack gives
    7000 for entry 0 and 3000 for entry 1. *)
Lemma stages_start_mass_not_to_top :
  exists x0 x1,
    nth_error (stages_start_mass (sample_vessel [])) 0 = Some x0 /\
    nth_error (stages_start_mass (sample_vessel [])) 1 = Some x1 /\
    x0 = 5000 /\ x1 = 7000 /\
    x0 <> mass_from_stage_to_top (sample_vessel []) 0 /\
    x1 <> mass_from_stage_to_top (sample_vessel []) 1 /\
    x0 <> 1000 + 4000 + 2000 /\
    x1 <> 1000 + 2000.
Proof.
  exists (1000 + 4000), (1000 + 4000 + 2000).
  unfold mass_from_stage_to_top, stage_masses, id; simpl.
  repeat split; try reflexivity; lra.
Qed.

(** C1, amended: the start-mass sequence has exactly two entries, and entry
    [i] is the payload mass plus the masses of the stages from the first
    stage up to and including stage [i]: entry 0 is payload + first stage,
    entry 1 is payload + first stage + second stage. *)
Theorem stages_start_mass_up_to_stage (self : RocketTelemetry) :
  stages_start_mass self =
    [ mass_up_to_stage self 0; mass_up_to_stage self 1 ] /\
  mass_up_to_stage self 0 = satellite_bus_mass self + first_stage_mass self /\
  mass_up_to_stage self 1 =
    satellite_bus_mass self + first_stage_mass self + second_stage_mass self.
Proof.
  assert (H0 : mass_up_to_stage self 0 =
               satellite_bus_mass self + first_stage_mass self).
  { unfold mass_up_to_stage, stage_masses, id; simpl. lra. }
  assert (H1 : mass_up_to_stage self 1 =
               satellite_bus_mass self + first_stage_mass self +
               second_stage_mass self).
  { unfold mass_up_to_stage, stage_masses, id; simpl. lra. }
  split; [| split; assumption].
  rewrite H0, H1. reflexivity.
Qed.

(** C8, as stated, fails: on the sample vehicle the start masses are
    [5000; 7000], and the later stage starts heavier. *)
Lemma stages_start_mass_not_decreasing :
  ~ strictly_decreasing (stages_start_mass (sample_vessel [])).
Proof.
  unfold stages_start_mass; simpl. intros (H & _). lra.
Qed.

(** C8, amended: the second start mass is the first one plus the
    second-stage mass, so for a non-negative second-stage mass the start
    masses do not decrease with the stage index, and are never strictly
    decreasing. *)
Theorem stages_start_mass_non_decreasing (self : RocketTelemetry) :
  0 <= second_stage_mass self ->
  (exists m0 m1, stages_start_mass self = [m0; m1] /\
                 m1 = m0 + second_stage_mass self) /\
  non_decreasing (stages_start_mass self) /\
  ~ strictly_decreasing (stages_start_mass self).
Proof.
  intros Hs. unfold stages_start_mass. split; [| split].
  - eexists _, _. split; reflexivity.
  - simpl. split; [lra | exact I].
  - simpl. intros (H & _). lra.
Qed.

Lemma stages_start_mass_non_decreasing_witness :
  non_decreasing (stages_start_mass (sample_vessel [])).
Proof.
  apply (stages_start_mass_non_decreasing (sample_vessel [])).
  simpl. lra.
Defined.

(** ** The helpers of [BaseRocket] (C3, C6) *)

(** C3: [calculate_delta_v] always returns; it returns [0] when
    [fuel_mass <= 0], [start_mass - fuel_mass <= 0] or [isp <= 0], and
    [isp * 9.80665 * ln (start_mass / (start_mass - fuel_mass))] otherwise.
    At [(300, 0, 5000)] and [(300, 5000, 5000)] it returns [0]; at
    [(300, 1000, 5000)] it returns a value between 656.3 and 656.7, within 1
    of 657. *)
Theorem calculate_delta_v_contract :
  (forall isp fuel_mass start_mass : R,
     returns (BaseRocket.calculate_delta_v isp fuel_mass start_mass) /\
     (fuel_mass <= 0 \/ start_mass - fuel_mass <= 0 \/ isp <= 0 ->
      BaseRocket.calculate_delta_v isp fuel_mass start_mass = Ok 0) /\
     (~ (fuel_mass <= 0 \/ start_mass - fuel_mass <= 0 \/ isp <= 0) ->
      BaseRocket.calculate_delta_v isp fuel_mass start_mass =
      Ok (isp * 9.80665 * ln (start_mass / (start_mass - fuel_mass))))) /\
  BaseRocket.calculate_delta_v 300 0 5000 = Ok 0 /\
  BaseRocket.calculate_delta_v 300 5000 5000 = Ok 0 /\
  exists v, BaseRocket.calculate_delta_v 300 1000 5000 = Ok v /\
            656.3 < v < 656.7 /\ Rabs (v - 657) < 1.
Proof.
  split; [| split; [| split]].
  - intros isp fuel_mass start_mass. split; [| split].
    + apply calculate_delta_v_returns.
    + apply calculate_delta_v_guard.
    + intros Hn. apply calculate_delta_v_equation; lra.
  - apply calculate_delta_v_guard. left. lra.
  - apply calculate_delta_v_guard. right. left. lra.
  - eexists. split; [apply calculate_delta_v_equation; lra |].
    unfold BaseRocket.g0.
    replace (5000 / (5000 - 1000)) with (5 / 4) by lra.
    pose proof ln_5_4_bounds as (Hlo & Hhi).
    assert (H : 656.3 < 300 * 9.80665 * ln (5 / 4) < 656.7) by lra.
    split; [exact H |].
    apply Rabs_def1; lra.
Qed.

Lemma calculate_delta_v_contract_witness :
  BaseRocket.calculate_delta_v 300 5000 5000 = Ok 0 /\
  BaseRocket.calculate_delta_v 300 1000 5000 =
    Ok (300 * 9.80665 * ln (5000 / (5000 - 1000))).
Proof.
  destruct calculate_delta_v_contract as (H & _).
  split.
  - apply (H 300 5000 5000). right. left. lra.
  - apply (H 300 1000 5000). lra.
Defined.

(** C6: [burn_time_estimation] always returns; it returns [0] when
    [thrust <= 0] or [isp <= 0], and [fuel_mass * isp * g0 / thrust]
    otherwise.  At [(300, 1000, 0)] it returns [0]. *)
Theorem burn_time_estimation_contract :
  (forall isp fuel_mass thrust : R,
     returns (BaseRocket.burn_time_estimation isp fuel_mass thrust) /\
     (thrust <= 0 \/ isp <= 0 ->
      BaseRocket.burn_time_estimation isp fuel_mass thrust = Ok 0) /\
     (~ (thrust <= 0 \/ isp <= 0) ->
      BaseRocket.burn_time_estimation isp fuel_mass thrust =
      Ok (fuel_mass * isp * BaseRocket.g0 / thrust))) /\
  BaseRocket.g0 = 9.80665 /\
  BaseRocket.burn_time_estimation 300 1000 0 = Ok 0.
Proof.
  split; [| split].
  - intros isp fuel_mass thrust. split; [| split].
    + apply burn_time_estimation_returns.
    + apply burn_time_estimation_guard.
    + intros Hn. apply burn_time_estimation_equation; lra.
  - reflexivity.
  - apply burn_time_estimation_guard. left. lra.
Qed.

Lemma burn_time_estimation_contract_witness :
  BaseRocket.burn_time_estimation 300 1000 0 = Ok 0 /\
  BaseRocket.burn_time_estimation 300 1000 100000 =
    Ok (1000 * 300 * BaseRocket.g0 / 100000).
Proof.
  destruct burn_time_estimation_contract as (H & _).
  split.
  - apply (H 300 1000 0). left. lra.
  - apply (H 300 1000 100000). lra.
Defined.

(** ** The report (C2, C4, C5, C7, C9, C10) *)

(** C2, as stated, fails: for the sample vehicle with one sample engine the
    report is returned and the [twr] and [slt] of its entry differ from the
    thrusts divided by [start_mass * 9.80665]. *)
Lemma twr_slt_not_standard_gravity :
  exists r d,
    get_delta_v_status BaseRocket.calculate_delta_v
      BaseRocket.burn_time_estimation (sample_vessel [sample_engine]) = Ok r /\
    nth_error (Report.delta_v_list r) 0 = Some d /\
    Entry.twr d <>
      Engine.max_vacuum_thrust sample_engine / (Entry.start_mass d * 9.80665) /\
    Entry.slt d <>
      Engine.max_thrust sample_engine / (Entry.start_mass d * 9.80665).
Proof.
  destruct (sample_vessel_returns [sample_engine]) as (r & Hr).
  exists r.
  pose proof Hr as Hrep. unfold get_delta_v_status in Hrep.
  apply build_report_entry in Hrep as (Hlen & Hent).
  destruct (Report.delta_v_list r) as [| d ds] eqn:El; [discriminate Hlen |].
  exists d. split; [exact Hr | split; [reflexivity |]].
  destruct (Hent 0%nat d eq_refl) as (engine & Heng & Hbody).
  injection Heng as <-.
  apply delta_v_entry_Ok in Hbody
    as (Hm & _ & _ & _ & _ & _ & Htwr & Hslt & _).
  simpl in Hm. injection Hm as Hm.
  rewrite Htwr, Hslt, <- Hm. simpl. split; lra.
Qed.

Section ReportClaims.

Variable calculate_delta_v : R -> R -> R -> result R.
Variable burn_time_estimation : R -> R -> R -> result R.

#[local] Abbreviation build_report :=
  (build_report calculate_delta_v burn_time_estimation).
#[local] Abbreviation get_delta_v_status :=
  (get_delta_v_status calculate_delta_v burn_time_estimation).

(** C2, amended: in a returned report the entry of engine [i] has
    [twr = max_vacuum_thrust / (start_mass * 9.81)] and
    [slt = max_thrust / (start_mass * 9.81)], with a non-zero divisor; the
    constant is the literal 9.81. *)
Theorem twr_slt_of_entry (self : RocketTelemetry) (r : Report.t) :
  get_delta_v_status self = Ok r ->
  forall i d, nth_error (Report.delta_v_list r) i = Some d ->
  exists engine,
    nth_error (engines self) i = Some engine /\
    Entry.start_mass d * 9.81 <> 0 /\
    Entry.twr d =
      Engine.max_vacuum_thrust engine / (Entry.start_mass d * 9.81) /\
    Entry.slt d = Engine.max_thrust engine / (Entry.start_mass d * 9.81).
Proof.
  intros Hr i d Hd. unfold get_delta_v_status in Hr.
  apply build_report_entry in Hr as (_ & Hent).
  destruct (Hent i d Hd) as (engine & Heng & Hbody).
  apply delta_v_entry_Ok in Hbody
    as (_ & Hnz & _ & _ & _ & _ & Htwr & Hslt & _).
  exists engine. repeat split; assumption.
Qed.

(** C4: in a returned report [total_delta_v_atom] and [total_delta_v_vac]
    are the sums of [atom_delta_v] and [vac_delta_v] over all entries of
    [delta_v_list], and when the list is not empty [stage_delta_v_atom] and
    [stage_delta_v_vac] are the two fields of its last entry. *)
Theorem totals_and_stage_figures (self : RocketTelemetry) (r : Report.t) :
  get_delta_v_status self = Ok r ->
  Report.total_delta_v_atom r =
    sum_over Entry.atom_delta_v (Report.delta_v_list r) /\
  Report.total_delta_v_vac r =
    sum_over Entry.vac_delta_v (Report.delta_v_list r) /\
  forall front last_entry,
    Report.delta_v_list r = front ++ [last_entry] ->
    Report.stage_delta_v_atom r = Entry.atom_delta_v last_entry /\
    Report.stage_delta_v_vac r = Entry.vac_delta_v last_entry.
Proof.
  intros Hr. unfold get_delta_v_status in Hr.
  apply build_report_Ok in Hr as (_ & Hta & Htv & Hsa & Hsv).
  rewrite py_sum_map in Hta, Htv.
  split; [exact Hta | split; [exact Htv |]].
  intros front last_entry E. rewrite E in Hsa, Hsv.
  rewrite py_last_or_snoc in Hsa, Hsv.
  injection Hsa as <-. injection Hsv as <-. split; reflexivity.
Qed.

(** C5: for a non-empty list of stage start masses the lookup
    [stages_start_mass[min(i, len(stages_start_mass) - 1)]] returns the
    element at position [min i (len - 1)]; in a returned report there is one
    entry per engine and the entry of engine [i] carries that element as its
    start mass; with two start masses and three engines the entries of
    engines 1 and 2 both carry the second one. *)
Theorem start_mass_clamped :
  (forall (ssm : list R) (i : nat), ssm <> [] ->
     exists m,
       py_getitem ssm (Z.min (Z.of_nat i) (Z.of_nat (length ssm) - 1)) = Ok m /\
       nth_error ssm (Nat.min i (length ssm - 1)) = Some m) /\
  (forall (ssm : list R) (engines : list Engine.t) (r : Report.t),
     ssm <> [] ->
     build_report ssm engines = Ok r ->
     length (Report.delta_v_list r) = length engines /\
     forall i d, nth_error (Report.delta_v_list r) i = Some d ->
       nth_error ssm (Nat.min i (length ssm - 1)) = Some (Entry.start_mass d)) /\
  (forall (m0 m1 : R) (e0 e1 e2 : Engine.t) (r : Report.t),
     build_report [m0; m1] [e0; e1; e2] = Ok r ->
     exists d0 d1 d2,
       Report.delta_v_list r = [d0; d1; d2] /\
       Entry.start_mass d0 = m0 /\
       Entry.start_mass d1 = m1 /\
       Entry.start_mass d2 = m1).
Proof.
  assert (Hrep : forall ssm engines r,
    build_report ssm engines = Ok r ->
    length (Report.delta_v_list r) = length engines /\
    forall i d, nth_error (Report.delta_v_list r) i = Some d ->
      nth_error ssm (Nat.min i (length ssm - 1)) = Some (Entry.start_mass d)).
  { intros ssm engines r Hr.
    apply build_report_entry in Hr as (Hlen & Hent).
    split; [exact Hlen |]. intros i d Hd.
    destruct (Hent i d Hd) as (engine & _ & Hbody).
    apply delta_v_entry_Ok in Hbody as (Hm & _). exact Hm. }
  split; [| split].
  - intros ssm i Hne.
    destruct (py_getitem_clamp_returns ssm i Hne) as (m & Hm).
    exists m. split; [exact Hm |]. apply py_getitem_clamp_Ok. exact Hm.
  - intros ssm engines r _ Hr. apply Hrep. exact Hr.
  - intros m0 m1 e0 e1 e2 r Hr. apply Hrep in Hr as (Hlen & Hent).
    destruct (Report.delta_v_list r) as [| d0 [| d1 [| d2 [| d3 ds]]]];
      try discriminate Hlen.
    exists d0, d1, d2. split; [reflexivity |].
    pose proof (Hent 0%nat d0 eq_refl) as H0.
    pose proof (Hent 1%nat d1 eq_refl) as H1.
    pose proof (Hent 2%nat d2 eq_refl) as H2.
    simpl in H0, H1, H2.
    injection H0 as H0. injection H1 as H1. injection H2 as H2.
    repeat split; symmetry; assumption.
Qed.

(** C7, the failing input: a vehicle whose payload and first-stage masses
    are [0], with one engine.  The first start mass is [0] and the division
    of line 226 raises [ZeroDivisionError], whatever the two helpers do. *)
Theorem zero_start_mass_raises :
  stages_start_mass untagged_vessel = [0 + 0; 0 + 0 + 2000] /\
  get_delta_v_status untagged_vessel = Raise ZeroDivisionError.
Proof.
  split; [reflexivity |].
  unfold get_delta_v_status, build_report.
  unfold untagged_vessel at 2. cbv [engines].
  rewrite enumerate_engines_raise_first with (e := ZeroDivisionError);
    [reflexivity |].
  unfold delta_v_entry.
  rewrite py_getitem_clamp by discriminate.
  simpl. rewrite py_div_zero by lra. reflexivity.
Qed.

(** C9: for an empty engine list the report is returned, its four figures
    are [0] and its [delta_v_list] is empty, for any list of start masses
    and so for any vehicle without engines. *)
Theorem empty_engine_list_report :
  (forall ssm : list R, build_report ssm [] = Ok empty_report) /\
  (forall payload first second : R,
     get_delta_v_status (mkRocketTelemetry payload first second []) =
     Ok empty_report) /\
  Report.stage_delta_v_atom empty_report = 0 /\
  Report.stage_delta_v_vac empty_report = 0 /\
  Report.total_delta_v_atom empty_report = 0 /\
  Report.total_delta_v_vac empty_report = 0 /\
  Report.delta_v_list empty_report = [].
Proof.
  split; [| split]; [intros ssm; reflexivity | intros; reflexivity |].
  repeat split; reflexivity.
Qed.

(** C10: in a returned report the [max_thrust] field of the entry of engine
    [i] is that engine's [max_vacuum_thrust], while [slt] and the burn time
    are computed from the engine's [max_thrust]. *)
Theorem entry_max_thrust_is_vacuum (self : RocketTelemetry) (r : Report.t) :
  get_delta_v_status self = Ok r ->
  forall i d, nth_error (Report.delta_v_list r) i = Some d ->
  exists engine,
    nth_error (engines self) i = Some engine /\
    Entry.max_thrust d = Engine.max_vacuum_thrust engine /\
    Entry.slt d = Engine.max_thrust engine / (Entry.start_mass d * 9.81) /\
    burn_time_estimation (Engine.specific_impulse_at engine)
      (Entry.burned_mass d) (Engine.max_thrust engine) = Ok (Entry.time d).
Proof.
  intros Hr i d Hd. unfold get_delta_v_status in Hr.
  apply build_report_entry in Hr as (_ & Hent).
  destruct (Hent i d Hd) as (engine & Heng & Hbody).
  apply delta_v_entry_Ok in Hbody
    as (_ & _ & _ & Hfuel & _ & Hmax & _ & Hslt & _ & _ & _ & Htime).
  exists engine. rewrite Hfuel. repeat split; assumption.
Qed.

End ReportClaims.

(** ** The report claims on the sample vehicle *)

(** A returned report has an entry at every engine position. *)
Lemma report_entry_exists (calculate_delta_v burn_time_estimation :
    R -> R -> R -> result R) (ssm : list R) (engines : list Engine.t)
    (r : Report.t) (i : nat) :
  build_report calculate_delta_v burn_time_estimation ssm engines = Ok r ->
  (i < length engines)%nat ->
  exists d, nth_error (Report.delta_v_list r) i = Some d.
Proof.
  intros Hr Hi. apply build_report_entry in Hr as (Hlen & _).
  destruct (nth_error (Report.delta_v_list r) i) as [d |] eqn:E.
  - exists d. reflexivity.
  - apply nth_error_None in E. lia.
Qed.

Lemma twr_slt_of_entry_witness :
  exists r d,
    get_delta_v_status BaseRocket.calculate_delta_v
      BaseRocket.burn_time_estimation (sample_vessel [sample_engine]) = Ok r /\
    nth_error (Report.delta_v_list r) 0 = Some d /\
    Entry.twr d = 120000 / (Entry.start_mass d * 9.81) /\
    Entry.slt d = 100000 / (Entry.start_mass d * 9.81).
Proof.
  destruct (sample_vessel_returns [sample_engine]) as (r & Hr).
  destruct (report_entry_exists _ _ _ _ r 0 Hr) as (d & Hd); [simpl; lia |].
  exists r, d. split; [exact Hr | split; [exact Hd |]].
  destruct (twr_slt_of_entry _ _ _ r Hr 0%nat d Hd)
    as (engine & Heng & _ & Htwr & Hslt).
  injection Heng as <-. split; [exact Htwr | exact Hslt].
Defined.

Lemma totals_and_stage_figures_witness :
  exists r,
    get_delta_v_status BaseRocket.calculate_delta_v
      BaseRocket.burn_time_estimation
      (sample_vessel [sample_engine; sample_engine]) = Ok r /\
    Report.total_delta_v_atom r =
      sum_over Entry.atom_delta_v (Report.delta_v_list r) /\
    Report.total_delta_v_vac r =
      sum_over Entry.vac_delta_v (Report.delta_v_list r).
Proof.
  destruct (sample_vessel_returns [sample_engine; sample_engine]) as (r & Hr).
  exists r. split; [exact Hr |].
  destruct (totals_and_stage_figures _ _ _ r Hr) as (Ha & Hv & _).
  split; [exact Ha | exact Hv].
Defined.

Lemma start_mass_clamped_witness :
  exists r d0 d1 d2,
    build_report BaseRocket.calculate_delta_v BaseRocket.burn_time_estimation
      [5000; 7000] [sample_engine; sample_engine; sample_engine] = Ok r /\
    Report.delta_v_list r = [d0; d1; d2] /\
    Entry.start_mass d0 = 5000 /\
    Entry.start_mass d1 = 7000 /\
    Entry.start_mass d2 = 7000.
Proof.
  destruct (build_report_total BaseRocket.calculate_delta_v
              BaseRocket.burn_time_estimation [5000; 7000]
              [sample_engine; sample_engine; sample_engine])
    as (r & Hr).
  - discriminate.
  - repeat constructor; lra.
  - apply calculate_delta_v_returns.
  - apply burn_time_estimation_returns.
  - destruct (start_mass_clamped BaseRocket.calculate_delta_v
                BaseRocket.burn_time_estimation) as (_ & _ & H).
    destruct (H _ _ _ _ _ r Hr) as (d0 & d1 & d2 & Hl & H0 & H1 & H2).
    exists r, d0, d1, d2. repeat split; assumption.
Defined.

Lemma entry_max_thrust_is_vacuum_witness :
  exists r d,
    get_delta_v_status BaseRocket.calculate_delta_v
      BaseRocket.burn_time_estimation (sample_vessel [sample_engine]) = Ok r /\
    nth_error (Report.delta_v_list r) 0 = Some d /\
    Entry.max_thrust d = 120000 /\
    Entry.max_thrust d <> Engine.max_thrust sample_engine.
Proof.
  destruct (sample_vessel_returns [sample_engine]) as (r & Hr).
  destruct (report_entry_exists _ _ _ _ r 0 Hr) as (d & Hd); [simpl; lia |].
  exists r, d. split; [exact Hr | split; [exact Hd |]].
  destruct (entry_max_thrust_is_vacuum _ _ _ r Hr 0%nat d Hd)
    as (engine & Heng & Hmax & _).
  injection Heng as <-. split; [exact Hmax |].
  rewrite Hmax. simpl. lra.
Defined.

(** * Further properties of the delta-v report *)

Lemma py_last_or_returns {A B : Type} (f : A -> B) (xs : list A) (d : B) :
  returns (py_last_or f xs d).
Proof.
  destruct xs as [| x rest].
  - exists d. reflexivity.
  - destruct (@exists_last _ (x :: rest)) as (front & z & E); [discriminate |].
    rewrite E, py_last_or_snoc. eexists; reflexivity.
Qed.

Lemma sum_over_app {A : Type} (f : A -> R) (xs ys : list A) :
  sum_over f (xs ++ ys) = sum_over f xs + sum_over f ys.
Proof.
  induction xs as [| x rest IH]; simpl; [lra | rewrite IH; lra].
Qed.

Lemma sum_over_nonneg {A : Type} (f : A -> R) (xs : list A) :
  (forall x, In x xs -> 0 <= f x) -> 0 <= sum_over f xs.
Proof.
  induction xs as [| x rest IH]; intros H; simpl; [lra |].
  assert (0 <= f x) by (apply H; left; reflexivity).
  assert (0 <= sum_over f rest) by (apply IH; intros y Hy; apply H; right; exact Hy).
  lra.
Qed.

Section MoreDeltaVFacts.

Variable calculate_delta_v : R -> R -> R -> result R.
Variable burn_time_estimation : R -> R -> R -> result R.

#[local] Abbreviation delta_v_entry :=
  (delta_v_entry calculate_delta_v burn_time_estimation).
#[local] Abbreviation enumerate_engines :=
  (enumerate_engines calculate_delta_v burn_time_estimation).
#[local] Abbreviation build_report :=
  (build_report calculate_delta_v burn_time_estimation).
#[local] Abbreviation get_delta_v_status :=
  (get_delta_v_status calculate_delta_v burn_time_estimation).

(** The loop over a concatenation is the loop over the first list followed
    by the loop over the second, positions continuing. *)
Lemma enumerate_engines_app (ssm : list R) (xs ys : list Engine.t) :
  forall (i : nat) (acc : list Entry.t),
  enumerate_engines ssm i (xs ++ ys) acc =
  (l <- enumerate_engines ssm i xs acc ;;
   enumerate_engines ssm (i + length xs) ys l).
Proof.
  induction xs as [| x rest IH]; intros i acc; simpl.
  - rewrite Nat.add_0_r. reflexivity.
  - destruct (delta_v_entry ssm i x) as [d | e]; simpl; [| reflexivity].
    rewrite IH. replace (S i + length rest)%nat with (i + S (length rest))%nat
      by lia. reflexivity.
Qed.

(** When the loop raises, the loop body raised at some engine. *)
Lemma enumerate_engines_Raise (ssm : list R) (engines : list Engine.t) :
  forall (i : nat) (acc : list Entry.t) (e : exn),
  enumerate_engines ssm i engines acc = Raise e ->
  exists k engine,
    nth_error engines k = Some engine /\
    delta_v_entry ssm (i + k) engine = Raise e.
Proof.
  induction engines as [| engine rest IH]; intros i acc e H; simpl in H.
  - discriminate H.
  - destruct (delta_v_entry ssm i engine) as [d | e'] eqn:E; simpl in H.
    + apply IH in H as (k & eng & Hk & Hb).
      exists (S k), eng. split; [exact Hk |].
      replace (i + S k)%nat with (S i + k)%nat by lia. exact Hb.
    + injection H as <-. exists 0%nat, engine.
      rewrite Nat.add_0_r. split; [reflexivity | exact E].
Qed.

(** When the report raises, the loop raised. *)
Lemma build_report_Raise (ssm : list R) (engines : list Engine.t) (e : exn) :
  build_report ssm engines = Raise e ->
  enumerate_engines ssm 0 engines [] = Raise e.
Proof.
  unfold build_report.
  destruct (enumerate_engines ssm 0 engines []) as [l | e'] eqn:El; simpl.
  - destruct (py_last_or_returns Entry.atom_delta_v l 0) as (a & ->).
    destruct (py_last_or_returns Entry.vac_delta_v l 0) as (v & ->).
    simpl. discriminate.
  - intros H. injection H as <-. reflexivity.
Qed.

(** The loop body, for a start mass that is found and is not zero: it
    returns when the three helper calls do. *)
Lemma delta_v_entry_returns_at (ssm : list R) (i : nat) (engine : Engine.t)
    (m : R) :
  nth_error ssm (Nat.min i (length ssm - 1)) = Some m ->
  m <> 0 ->
  (forall a b c, returns (calculate_delta_v a b c)) ->
  (forall a b c, returns (burn_time_estimation a b c)) ->
  returns (delta_v_entry ssm i engine).
Proof.
  intros Hm Hm0 Hcalc Hburn. unfold delta_v_entry.
  assert (Hne : ssm <> []) by (intros ->; destruct (Nat.min i (length (@nil R) - 1)); discriminate Hm).
  rewrite py_getitem_clamp by exact Hne. rewrite Hm. simpl.
  rewrite !py_div_nonzero by lra. simpl.
  destruct (Hcalc (Engine.vacuum_specific_impulse engine)
              (py_sum (map total_resource_available (Engine.propellants engine)))
              m) as (v & ->).
  destruct (Hcalc (Engine.specific_impulse_at engine)
              (py_sum (map total_resource_available (Engine.propellants engine)))
              m) as (a & ->).
  destruct (Hburn (Engine.specific_impulse_at engine)
              (py_sum (map total_resource_available (Engine.propellants engine)))
              (Engine.max_thrust engine)) as (t & ->).
  simpl. eexists; reflexivity.
Qed.

(** What the loop body raises, for a non-empty list of start masses: the
    division by a zero start mass, or what a helper raised. *)
Lemma delta_v_entry_Raise (ssm : list R) (i : nat) (engine : Engine.t)
    (e : exn) :
  ssm <> [] ->
  delta_v_entry ssm i engine = Raise e ->
  (e = ZeroDivisionError /\
   exists m, nth_error ssm (Nat.min i (length ssm - 1)) = Some m /\ m = 0) \/
  (exists a b c, calculate_delta_v a b c = Raise e) \/
  (exists a b c, burn_time_estimation a b c = Raise e).
Proof.
  intros Hne. unfold delta_v_entry.
  destruct (py_getitem_clamp_returns ssm i Hne) as (m & Hm).
  rewrite Hm. apply py_getitem_clamp_Ok in Hm. simpl.
  destruct (Req_dec_T m 0) as [Hz | Hnz].
  - rewrite py_div_zero by lra. simpl. intros H. injection H as <-.
    left. split; [reflexivity |]. exists m. split; assumption.
  - rewrite !py_div_nonzero by lra. simpl.
    destruct (calculate_delta_v (Engine.vacuum_specific_impulse engine) _ m)
      as [v | e1] eqn:E1; simpl.
    2:{ intros H. injection H as <-. right. left. eauto. }
    destruct (calculate_delta_v (Engine.specific_impulse_at engine) _ m)
      as [a | e2] eqn:E2; simpl.
    2:{ intros H. injection H as <-. right. left. eauto. }
    destruct (burn_time_estimation (Engine.specific_impulse_at engine) _ _)
      as [t | e3] eqn:E3; simpl.
    2:{ intros H. injection H as <-. right. right. eauto. }
    discriminate.
Qed.

(** The start mass the loop body finds in the two-entry list of
    [get_delta_v_status]. *)
Lemma stages_start_mass_at (self : RocketTelemetry) (i : nat) (m : R) :
  nth_error (stages_start_mass self)
    (Nat.min i (length (stages_start_mass self) - 1)) = Some m ->
  m = if (i =? 0)%nat
      then satellite_bus_mass self + first_stage_mass self
      else satellite_bus_mass self + first_stage_mass self +
           second_stage_mass self.
Proof.
  unfold stages_start_mass. simpl length.
  destruct i as [| i].
  - simpl. intros H. injection H as <-. reflexivity.
  - replace (Nat.min (S i) (2 - 1)) with 1%nat by lia. simpl.
    intros H. injection H as <-. reflexivity.
Qed.

(** The start mass of entry [i] of a returned report. *)
Lemma entry_start_mass_value (self : RocketTelemetry) (r : Report.t) :
  get_delta_v_status self = Ok r ->
  forall i d, nth_error (Report.delta_v_list r) i = Some d ->
  Entry.start_mass d <> 0 /\
  Entry.start_mass d =
    if (i =? 0)%nat
    then satellite_bus_mass self + first_stage_mass self
    else satellite_bus_mass self + first_stage_mass self +
         second_stage_mass self.
Proof.
  intros Hr i d Hd. unfold get_delta_v_status in Hr.
  apply build_report_entry in Hr as (_ & Hent).
  destruct (Hent i d Hd) as (engine & _ & Hbody).
  apply delta_v_entry_Ok in Hbody as (Hm & Hnz & _).
  split; [lra |]. apply stages_start_mass_at. exact Hm.
Qed.

End MoreDeltaVFacts.

Section ReportProperties.

Variable calculate_delta_v : R -> R -> R -> result R.
Variable burn_time_estimation : R -> R -> R -> result R.

#[local] Abbreviation delta_v_entry :=
  (delta_v_entry calculate_delta_v burn_time_estimation).
#[local] Abbreviation build_report :=
  (build_report calculate_delta_v burn_time_estimation).
#[local] Abbreviation get_delta_v_status :=
  (get_delta_v_status calculate_delta_v burn_time_estimation).

(** X1: a returned report has one entry per engine, in the engines' order,
    and the entry of engine [i] carries the engine's stage number, the sum
    of its propellants' available mass as [burned_mass], its impulse at the
    current pressure as [isp], and [end_mass = start_mass - burned_mass]. *)
Theorem entry_bookkeeping (self : RocketTelemetry) (r : Report.t) :
  get_delta_v_status self = Ok r ->
  length (Report.delta_v_list r) = length (engines self) /\
  forall i d, nth_error (Report.delta_v_list r) i = Some d ->
  exists engine,
    nth_error (engines self) i = Some engine /\
    Entry.stage d = Engine.stage engine /\
    Entry.burned_mass d =
      sum_over total_resource_available (Engine.propellants engine) /\
    Entry.isp d = Engine.specific_impulse_at engine /\
    Entry.end_mass d = Entry.start_mass d - Entry.burned_mass d /\
    Entry.end_mass d + Entry.burned_mass d = Entry.start_mass d.
Proof.
  intros Hr. unfold get_delta_v_status in Hr.
  apply build_report_entry in Hr as (Hlen & Hent).
  split; [exact Hlen |]. intros i d Hd.
  destruct (Hent i d Hd) as (engine & Heng & Hbody).
  apply delta_v_entry_Ok in Hbody
    as (_ & _ & Hstage & Hfuel & Hend & _ & _ & _ & Hisp & _).
  exists engine. unfold fuel_mass_of in Hfuel, Hend.
  rewrite py_sum_map in Hfuel, Hend.
  repeat split; try assumption; rewrite Hend, Hfuel; lra.
Qed.

(** X2: in a returned report the first entry starts at payload + first
    stage, every later entry starts at payload + first stage + second
    stage, and no entry has a zero start mass. *)
Theorem start_mass_of_entries (self : RocketTelemetry) (r : Report.t) :
  get_delta_v_status self = Ok r ->
  forall i d, nth_error (Report.delta_v_list r) i = Some d ->
  Entry.start_mass d <> 0 /\
  Entry.start_mass d =
    if (i =? 0)%nat
    then satellite_bus_mass self + first_stage_mass self
    else satellite_bus_mass self + first_stage_mass self +
         second_stage_mass self.
Proof.
  intros Hr i d Hd.
  destruct (entry_start_mass_value calculate_delta_v burn_time_estimation
              self r Hr i d Hd) as (Hnz & Heq).
  split; [exact Hnz | exact Heq].
Qed.

(** X3: when the two helpers always return, the report is returned exactly
    when there is no engine, or payload + first stage is not zero and, with
    two engines or more, payload + first stage + second stage is not zero
    either. *)
Theorem report_returns_iff (self : RocketTelemetry) :
  (forall a b c, returns (calculate_delta_v a b c)) ->
  (forall a b c, returns (burn_time_estimation a b c)) ->
  returns (get_delta_v_status self) <->
  engines self = [] \/
  (satellite_bus_mass self + first_stage_mass self <> 0 /\
   ((2 <= length (engines self))%nat ->
    satellite_bus_mass self + first_stage_mass self +
    second_stage_mass self <> 0)).
Proof.
  intros Hcalc Hburn. split.
  - intros (r & Hr).
    destruct (engines self) as [| e0 rest] eqn:Eeng; [left; reflexivity |].
    right.
    pose proof (entry_start_mass_value calculate_delta_v
                  burn_time_estimation self r Hr) as Hstart.
    pose proof Hr as Hlen. unfold get_delta_v_status in Hlen.
    apply build_report_entry in Hlen as (Hlen & _). rewrite Eeng in Hlen.
    destruct (Report.delta_v_list r) as [| d0 ds] eqn:El; [discriminate Hlen |].
    split.
    + destruct (Hstart 0%nat d0 eq_refl) as (Hnz & Heq).
      simpl in Heq. rewrite <- Heq. exact Hnz.
    + intros H2. destruct ds as [| d1 ds]; [simpl in Hlen, H2; lia |].
      destruct (Hstart 1%nat d1 eq_refl) as (Hnz & Heq).
      simpl in Heq. rewrite <- Heq. exact Hnz.
  - intros Hcond. unfold get_delta_v_status.
    apply build_report_returns. apply enumerate_engines_returns.
    intros k engine Hk. simpl.
    destruct Hcond as [Hnil | (H0 & H1)]; [rewrite Hnil in Hk; destruct k; discriminate Hk |].
    destruct k as [| k].
    + apply delta_v_entry_returns_at
        with (m := satellite_bus_mass self + first_stage_mass self);
        [reflexivity | exact H0 | exact Hcalc | exact Hburn].
    + apply delta_v_entry_returns_at
        with (m := satellite_bus_mass self + first_stage_mass self +
                   second_stage_mass self);
        [| | exact Hcalc | exact Hburn].
      * unfold stages_start_mass. simpl length.
        replace (Nat.min (S k) (2 - 1)) with 1%nat by lia. reflexivity.
      * apply H1.
        assert (S k < length (engines self))%nat
          by (apply nth_error_Some; rewrite Hk; discriminate).
        lia.
Qed.

(** X4: whatever the report raises is the [ZeroDivisionError] of a division
    by a zero start mass or an exception raised by one of the two helpers;
    the lookup of the start mass and the access to the last entry never
    raise. *)
Theorem report_raises_only (self : RocketTelemetry) (e : exn) :
  get_delta_v_status self = Raise e ->
  (e = ZeroDivisionError /\
   (satellite_bus_mass self + first_stage_mass self = 0 \/
    satellite_bus_mass self + first_stage_mass self +
    second_stage_mass self = 0)) \/
  (exists a b c, calculate_delta_v a b c = Raise e) \/
  (exists a b c, burn_time_estimation a b c = Raise e).
Proof.
  intros Hr. unfold get_delta_v_status in Hr.
  apply build_report_Raise in Hr.
  apply enumerate_engines_Raise in Hr as (k & engine & _ & Hbody).
  apply delta_v_entry_Raise in Hbody; [| discriminate].
  destruct Hbody as [(He & m & Hm & Hz) | Hhelper]; [| right; exact Hhelper].
  left. split; [exact He |].
  apply stages_start_mass_at in Hm. rewrite Hz in Hm.
  destruct (0 + k =? 0)%nat; [left | right]; symmetry; exact Hm.
Qed.

(** X5: the report raises what the loop body raises at the first engine
    where it raises; the engines after it are not looked at and no partial
    report is returned. *)
Theorem first_failure_propagates (ssm : list R)
    (before after : list Engine.t) (engine : Engine.t) (e : exn) :
  (forall k eng, nth_error before k = Some eng ->
     returns (delta_v_entry ssm k eng)) ->
  delta_v_entry ssm (length before) engine = Raise e ->
  build_report ssm (before ++ engine :: after) = Raise e.
Proof.
  intros Hbefore Hbody. unfold build_report.
  rewrite enumerate_engines_app.
  destruct (enumerate_engines_returns calculate_delta_v burn_time_estimation
              ssm before 0 []) as (l & Hl).
  { intros k eng Hk. simpl. apply Hbefore. exact Hk. }
  rewrite Hl. simpl. rewrite Hbody. reflexivity.
Qed.

(** X6: adding an engine at the end of the list keeps the entries of the
    report, appends the new engine's entry, adds its two delta-v figures to
    the totals and makes them the stage figures. *)
Theorem report_of_appended_engine (ssm : list R) (engines : list Engine.t)
    (engine : Engine.t) (r : Report.t) (d : Entry.t) :
  build_report ssm engines = Ok r ->
  delta_v_entry ssm (length engines) engine = Ok d ->
  build_report ssm (engines ++ [engine]) =
  Ok {| Report.stage_delta_v_atom := Entry.atom_delta_v d;
        Report.stage_delta_v_vac := Entry.vac_delta_v d;
        Report.total_delta_v_atom :=
          Report.total_delta_v_atom r + Entry.atom_delta_v d;
        Report.total_delta_v_vac :=
          Report.total_delta_v_vac r + Entry.vac_delta_v d;
        Report.delta_v_list := Report.delta_v_list r ++ [d] |}.
Proof.
  intros Hr Hd. apply build_report_Ok in Hr as (Hl & Hta & Htv & _).
  unfold build_report. rewrite enumerate_engines_app, Hl. simpl.
  rewrite Hd. simpl. rewrite !py_last_or_snoc. simpl.
  rewrite Hta, Htv. unfold py_sum. rewrite !map_app, !fold_left_app.
  reflexivity.
Qed.

(** X7: when the delta-v helper returns no negative value, the totals of a
    returned report are not negative and each stage figure is between [0]
    and its total. *)
Theorem stage_figures_within_totals (self : RocketTelemetry) (r : Report.t) :
  (forall a b c v, calculate_delta_v a b c = Ok v -> 0 <= v) ->
  get_delta_v_status self = Ok r ->
  0 <= Report.stage_delta_v_atom r <= Report.total_delta_v_atom r /\
  0 <= Report.stage_delta_v_vac r <= Report.total_delta_v_vac r.
Proof.
  intros Hpos Hr. unfold get_delta_v_status in Hr.
  pose proof (build_report_entry _ _ _ _ _ Hr) as (_ & Hent).
  apply build_report_Ok in Hr as (_ & Hta & Htv & Hsa & Hsv).
  rewrite py_sum_map in Hta, Htv.
  assert (Hnn : forall d, In d (Report.delta_v_list r) ->
                0 <= Entry.atom_delta_v d /\ 0 <= Entry.vac_delta_v d).
  { intros d Hin. apply In_nth_error in Hin as (i & Hi).
    destruct (Hent i d Hi) as (engine & _ & Hbody).
    apply delta_v_entry_Ok in Hbody
      as (_ & _ & _ & _ & _ & _ & _ & _ & _ & Hv & Ha & _).
    split; [exact (Hpos _ _ _ _ Ha) | exact (Hpos _ _ _ _ Hv)]. }
  destruct (Report.delta_v_list r) as [| d0 ds] eqn:El.
  - simpl in Hta, Htv, Hsa, Hsv.
    injection Hsa as <-. injection Hsv as <-. lra.
  - destruct (@exists_last _ (d0 :: ds)) as (front & z & E); [discriminate |].
    rewrite E in Hta, Htv, Hsa, Hsv, Hnn.
    rewrite py_last_or_snoc in Hsa, Hsv.
    injection Hsa as <-. injection Hsv as <-.
    rewrite sum_over_app in Hta, Htv. simpl in Hta, Htv.
    assert (0 <= sum_over Entry.atom_delta_v front).
    { apply sum_over_nonneg. intros x Hx. apply Hnn, in_or_app. left. exact Hx. }
    assert (0 <= sum_over Entry.vac_delta_v front).
    { apply sum_over_nonneg. intros x Hx. apply Hnn, in_or_app. left. exact Hx. }
    destruct (Hnn z) as (Hza & Hzv); [apply in_or_app; right; left; reflexivity |].
    lra.
Qed.


(** X9: from the second position on the loop body does not depend on the
    position: in a returned report, two positions after the first that hold
    the same engine reading hold the same entry. *)
Theorem clamped_positions_agree (self : RocketTelemetry) (r : Report.t)
    (i j : nat) (engine : Engine.t) :
  get_delta_v_status self = Ok r ->
  (1 <= i)%nat -> (1 <= j)%nat ->
  nth_error (engines self) i = Some engine ->
  nth_error (engines self) j = Some engine ->
  exists d,
    nth_error (Report.delta_v_list r) i = Some d /\
    nth_error (Report.delta_v_list r) j = Some d.
Proof.
  intros Hr Hi Hj Hei Hej. unfold get_delta_v_status in Hr.
  apply build_report_entry in Hr as (Hlen & Hent).
  assert (Hpos : forall k, (1 <= k)%nat ->
            delta_v_entry (stages_start_mass self) k engine =
            delta_v_entry (stages_start_mass self) 1 engine).
  { intros k Hk. unfold delta_v_entry, stages_start_mass. simpl length.
    replace (Z.min (Z.of_nat k) (Z.of_nat 2 - 1)) with 1%Z by lia.
    reflexivity. }
  assert (Hat : forall k, (1 <= k)%nat ->
            nth_error (engines self) k = Some engine ->
            exists d, nth_error (Report.delta_v_list r) k = Some d /\
                      delta_v_entry (stages_start_mass self) 1 engine = Ok d).
  { intros k Hk Hek.
    destruct (nth_error (Report.delta_v_list r) k) as [d |] eqn:E.
    - exists d. split; [reflexivity |].
      destruct (Hent k d E) as (eng & Heng & Hbody).
      rewrite Hek in Heng. injection Heng as <-.
      rewrite <- Hpos with (k := k) by exact Hk. exact Hbody.
    - apply nth_error_None in E.
      assert (k < length (engines self))%nat
        by (apply nth_error_Some; rewrite Hek; discriminate).
      lia. }
  destruct (Hat i Hi Hei) as (di & Hdi & Hbi).
  destruct (Hat j Hj Hej) as (dj & Hdj & Hbj).
  rewrite Hbi in Hbj. injection Hbj as <-.
  exists di. split; assumption.
Qed.

End ReportProperties.

(** ** The further properties on the sample vehicle *)

(** The delta-v helper of the specification returns no negative value. *)
Lemma calculate_delta_v_nonneg (isp fuel_mass start_mass v : R) :
  BaseRocket.calculate_delta_v isp fuel_mass start_mass = Ok v -> 0 <= v.
Proof.
  destruct (guard_or_not fuel_mass (start_mass - fuel_mass) isp)
    as [Hg | (Hf & Hm & Hi)].
  - rewrite (calculate_delta_v_guard _ _ _ Hg). intros H.
    injection H as <-. lra.
  - rewrite calculate_delta_v_equation by assumption. intros H.
    injection H as <-.
    assert (Hln : 0 < ln (start_mass / (start_mass - fuel_mass))).
    { rewrite <- ln_1. apply ln_increasing; [lra |].
      apply Rmult_lt_reg_r with (r := start_mass - fuel_mass); [exact Hm |].
      unfold Rdiv. rewrite Rmult_assoc, Rinv_l by lra. lra. }
    unfold BaseRocket.g0.
    apply Rmult_le_pos; [| lra]. apply Rmult_le_pos; lra.
Qed.

(** The report of the vehicle without payload and first-stage mass raises
    [ZeroDivisionError]. *)
Lemma untagged_vessel_raises :
  get_delta_v_status BaseRocket.calculate_delta_v
    BaseRocket.burn_time_estimation untagged_vessel = Raise ZeroDivisionError.
Proof.
  unfold get_delta_v_status, build_report.
  unfold untagged_vessel at 2. cbv [engines].
  rewrite enumerate_engines_raise_first with (e := ZeroDivisionError);
    [reflexivity |].
  unfold delta_v_entry.
  rewrite py_getitem_clamp by discriminate.
  simpl. rewrite py_div_zero by lra. reflexivity.
Qed.

(** The first entry of a returned report of the sample vehicle. *)
Lemma sample_vessel_first_entry (rest : list Engine.t) :
  exists r d,
    get_delta_v_status BaseRocket.calculate_delta_v
      BaseRocket.burn_time_estimation
      (sample_vessel (sample_engine :: rest)) = Ok r /\
    nth_error (Report.delta_v_list r) 0 = Some d.
Proof.
  destruct (sample_vessel_returns (sample_engine :: rest)) as (r & Hr).
  destruct (report_entry_exists _ _ _ _ r 0 Hr) as (d & Hd); [simpl; lia |].
  exists r, d. split; assumption.
Qed.

Lemma entry_bookkeeping_witness :
  exists r d,
    get_delta_v_status BaseRocket.calculate_delta_v
      BaseRocket.burn_time_estimation (sample_vessel [sample_engine]) = Ok r /\
    nth_error (Report.delta_v_list r) 0 = Some d /\
    Entry.stage d = 1%Z /\
    Entry.burned_mass d = 1000 /\
    Entry.end_mass d = Entry.start_mass d - Entry.burned_mass d.
Proof.
  destruct (sample_vessel_first_entry []) as (r & d & Hr & Hd).
  exists r, d. split; [exact Hr | split; [exact Hd |]].
  destruct (entry_bookkeeping _ _ _ r Hr) as (_ & H).
  destruct (H 0%nat d Hd) as (engine & Heng & Hs & Hb & _ & He & _).
  injection Heng as <-.
  split; [exact Hs | split; [| exact He]].
  rewrite Hb. simpl. lra.
Defined.

Lemma start_mass_of_entries_witness :
  exists r d,
    get_delta_v_status BaseRocket.calculate_delta_v
      BaseRocket.burn_time_estimation
      (sample_vessel [sample_engine; sample_engine]) = Ok r /\
    nth_error (Report.delta_v_list r) 1 = Some d /\
    Entry.start_mass d = 1000 + 4000 + 2000.
Proof.
  destruct (sample_vessel_returns [sample_engine; sample_engine]) as (r & Hr).
  destruct (report_entry_exists _ _ _ _ r 1 Hr) as (d & Hd); [simpl; lia |].
  exists r, d. split; [exact Hr | split; [exact Hd |]].
  destruct (start_mass_of_entries _ _ _ r Hr 1%nat d Hd) as (_ & H).
  exact H.
Defined.

Lemma report_returns_iff_witness :
  returns (get_delta_v_status BaseRocket.calculate_delta_v
             BaseRocket.burn_time_estimation
             (sample_vessel [sample_engine; sample_engine])) /\
  ~ returns (get_delta_v_status BaseRocket.calculate_delta_v
               BaseRocket.burn_time_estimation untagged_vessel).
Proof.
  split.
  - apply (report_returns_iff BaseRocket.calculate_delta_v
             BaseRocket.burn_time_estimation
             (sample_vessel [sample_engine; sample_engine])
             calculate_delta_v_returns burn_time_estimation_returns).
    right. simpl. split; [lra | intros _; lra].
  - intros H.
    apply (report_returns_iff BaseRocket.calculate_delta_v
             BaseRocket.burn_time_estimation untagged_vessel
             calculate_delta_v_returns burn_time_estimation_returns) in H.
    destruct H as [H | (H & _)]; [discriminate H | simpl in H; lra].
Defined.

Lemma report_raises_only_witness :
  (ZeroDivisionError = ZeroDivisionError /\
   (satellite_bus_mass untagged_vessel + first_stage_mass untagged_vessel = 0 \/
    satellite_bus_mass untagged_vessel + first_stage_mass untagged_vessel +
    second_stage_mass untagged_vessel = 0)) \/
  (exists a b c,
     BaseRocket.calculate_delta_v a b c = Raise ZeroDivisionError) \/
  (exists a b c,
     BaseRocket.burn_time_estimation a b c = Raise ZeroDivisionError).
Proof.
  apply (report_raises_only BaseRocket.calculate_delta_v
           BaseRocket.burn_time_estimation untagged_vessel ZeroDivisionError).
  exact untagged_vessel_raises.
Defined.

Lemma first_failure_propagates_witness :
  build_report BaseRocket.calculate_delta_v BaseRocket.burn_time_estimation
    [5000; 0] ([sample_engine] ++ sample_engine :: [sample_engine]) =
  Raise ZeroDivisionError.
Proof.
  apply first_failure_propagates.
  - intros k eng Hk.
    apply delta_v_entry_returns_at with (m := 5000).
    + destruct k as [| k]; [reflexivity |].
      destruct k; discriminate Hk.
    + lra.
    + apply calculate_delta_v_returns.
    + apply burn_time_estimation_returns.
  - unfold delta_v_entry. rewrite py_getitem_clamp by discriminate.
    simpl. rewrite py_div_zero by lra. reflexivity.
Defined.

Lemma report_of_appended_engine_witness :
  exists r d,
    build_report BaseRocket.calculate_delta_v BaseRocket.burn_time_estimation
      [5000; 7000] [sample_engine] = Ok r /\
    build_report BaseRocket.calculate_delta_v BaseRocket.burn_time_estimation
      [5000; 7000] ([sample_engine] ++ [sample_engine]) =
    Ok {| Report.stage_delta_v_atom := Entry.atom_delta_v d;
          Report.stage_delta_v_vac := Entry.vac_delta_v d;
          Report.total_delta_v_atom :=
            Report.total_delta_v_atom r + Entry.atom_delta_v d;
          Report.total_delta_v_vac :=
            Report.total_delta_v_vac r + Entry.vac_delta_v d;
          Report.delta_v_list := Report.delta_v_list r ++ [d] |}.
Proof.
  destruct (build_report_total BaseRocket.calculate_delta_v
              BaseRocket.burn_time_estimation [5000; 7000] [sample_engine])
    as (r & Hr);
    [discriminate | repeat constructor; lra
     | apply calculate_delta_v_returns | apply burn_time_estimation_returns |].
  destruct (delta_v_entry_returns BaseRocket.calculate_delta_v
              BaseRocket.burn_time_estimation [5000; 7000] 1 sample_engine)
    as (d & Hd);
    [discriminate | repeat constructor; lra
     | apply calculate_delta_v_returns | apply burn_time_estimation_returns |].
  exists r, d. split; [exact Hr |].
  apply report_of_appended_engine; [exact Hr | exact Hd].
Defined.

Lemma stage_figures_within_totals_witness :
  exists r,
    get_delta_v_status BaseRocket.calculate_delta_v
      BaseRocket.burn_time_estimation
      (sample_vessel [sample_engine; sample_engine]) = Ok r /\
    0 <= Report.stage_delta_v_atom r <= Report.total_delta_v_atom r /\
    0 <= Report.stage_delta_v_vac r <= Report.total_delta_v_vac r.
Proof.
  destruct (sample_vessel_returns [sample_engine; sample_engine]) as (r & Hr).
  exists r. split; [exact Hr |].
  apply (stage_figures_within_totals BaseRocket.calculate_delta_v
           BaseRocket.burn_time_estimation
           (sample_vessel [sample_engine; sample_engine]) r
           calculate_delta_v_nonneg Hr).
Defined.


Lemma clamped_positions_agree_witness :
  exists r d,
    get_delta_v_status BaseRocket.calculate_delta_v
      BaseRocket.burn_time_estimation
      (sample_vessel [sample_engine; sample_engine; sample_engine]) = Ok r /\
    nth_error (Report.delta_v_list r) 1 = Some d /\
    nth_error (Report.delta_v_list r) 2 = Some d.
Proof.
  destruct (sample_vessel_returns [sample_engine; sample_engine; sample_engine])
    as (r & Hr).
  destruct (clamped_positions_agree _ _ _ r 1 2 sample_engine Hr)
    as (d & H1 & H2); [lia | lia | reflexivity | reflexivity |].
  exists r, d. split; [exact Hr | split; assumption].
Defined.

(** * The engine statuses and the satellite-bus status *)

(** The items a returned loop appended are the bodies' results, in order. *)
Lemma for_each_append_Ok {A B : Type} (body : A -> result B) (xs : list A) :
  forall (acc l : list B),
  for_each_append body xs acc = Ok l ->
  exists items, l = acc ++ items /\ Forall2 (fun x y => body x = Ok y) xs items.
Proof.
  induction xs as [| x rest IH]; intros acc l H; simpl in H.
  - injection H as <-. exists []. rewrite app_nil_r.
    split; [reflexivity | constructor].
  - apply bind_Ok in H as (item & Hitem & H).
    apply IH in H as (items & -> & Hall).
    exists (item :: items). rewrite <- app_assoc.
    split; [reflexivity | constructor; assumption].
Qed.

(** The loop returns when the body returns on every item. *)
Lemma for_each_append_returns {A B : Type} (body : A -> result B)
    (xs : list A) :
  forall acc : list B,
  (forall x, In x xs -> returns (body x)) ->
  returns (for_each_append body xs acc).
Proof.
  induction xs as [| x rest IH]; intros acc Hbody; simpl.
  - exists acc. reflexivity.
  - destruct (Hbody x (or_introl eq_refl)) as (item & ->). simpl.
    apply IH. intros y Hy. apply Hbody. right. exact Hy.
Qed.

(** Position by position along two related lists. *)
Lemma Forall2_nth_error {A B : Type} (P : A -> B -> Prop) (xs : list A)
    (ys : list B) :
  Forall2 P xs ys ->
  forall i x, nth_error xs i = Some x ->
  exists y, nth_error ys i = Some y /\ P x y.
Proof.
  induction 1 as [| x0 y0 xs ys H0 Hrest IH]; intros i x Hx.
  - destruct i; discriminate Hx.
  - destruct i as [| i]; simpl in Hx.
    + injection Hx as <-. exists y0. split; [reflexivity | exact H0].
    + apply IH. exact Hx.
Qed.

Lemma Forall2_In_r {A B : Type} (P : A -> B -> Prop) (xs : list A)
    (ys : list B) :
  Forall2 P xs ys ->
  forall y, In y ys -> exists x, In x xs /\ P x y.
Proof.
  induction 1 as [| x0 y0 xs ys H0 Hrest IH]; intros y Hy.
  - destruct Hy.
  - destruct Hy as [<- | Hy].
    + exists x0. split; [left; reflexivity | exact H0].
    + destruct (IH y Hy) as (x & Hx & HP).
      exists x. split; [right; exact Hx | exact HP].
Qed.

(** The body of the loop of [get_all_engines_status] returns. *)
Lemma engine_status_Ok (vessel : Vessel) (engine : KrpcEngine.t) :
  exists status,
    engine_status vessel engine = Ok status /\
    EngineStatus.stage status = KrpcEngine.stage engine /\
    EngineStatus.max_thrust status = KrpcEngine.max_thrust engine /\
    EngineStatus.max_vacuum_thrust status =
      KrpcEngine.max_vacuum_thrust engine /\
    EngineStatus.vacuum_specific_impulse status =
      KrpcEngine.vacuum_specific_impulse engine /\
    EngineStatus.propellants status = KrpcEngine.propellants engine /\
    EngineStatus.available_thrust_at status =
      KrpcEngine.available_thrust_at engine (static_pressure vessel / 101325) /\
    EngineStatus.max_thrust_at status =
      KrpcEngine.max_thrust_at engine (static_pressure vessel / 101325) /\
    EngineStatus.specific_impulse_at status =
      KrpcEngine.specific_impulse_at engine (static_pressure vessel / 101325).
Proof.
  unfold engine_status. rewrite py_div_nonzero by lra. simpl.
  eexists. split; [reflexivity |]. simpl. repeat split; reflexivity.
Qed.

(** X10: [get_all_engines_status] never raises; it returns one status per
    engine of the vessel, in the same order, and the three pressure-dependent
    keys of each status are the engine's values at the static pressure
    divided by 101325, the pressure in atmospheres. *)
Theorem get_all_engines_status_at_pressure (vessel : Vessel) :
  exists statuses,
    get_all_engines_status vessel = Ok statuses /\
    length statuses = length (parts_engines vessel) /\
    (static_pressure vessel / 101325) * 101325 = static_pressure vessel /\
    forall i engine, nth_error (parts_engines vessel) i = Some engine ->
    exists status,
      nth_error statuses i = Some status /\
      EngineStatus.tag status = KrpcEngine.tag engine /\
      EngineStatus.name status = KrpcEngine.name engine /\
      EngineStatus.stage status = KrpcEngine.stage engine /\
      EngineStatus.available_thrust_at status =
        KrpcEngine.available_thrust_at engine
          (static_pressure vessel / 101325) /\
      EngineStatus.max_thrust_at status =
        KrpcEngine.max_thrust_at engine (static_pressure vessel / 101325) /\
      EngineStatus.specific_impulse_at status =
        KrpcEngine.specific_impulse_at engine
          (static_pressure vessel / 101325).
Proof.
  unfold get_all_engines_status.
  destruct (for_each_append_returns (engine_status vessel)
              (parts_engines vessel) []) as (statuses & Hs).
  { intros engine _. destruct (engine_status_Ok vessel engine) as (s & Hs & _).
    exists s. exact Hs. }
  exists statuses. split; [exact Hs |].
  apply for_each_append_Ok in Hs as (items & -> & Hall). simpl.
  split; [symmetry; exact (Forall2_length Hall) |].
  split; [field |].
  intros i engine Hi.
  destruct (Forall2_nth_error _ _ _ Hall i engine Hi) as (status & Hst & Hbody).
  exists status. split; [exact Hst |].
  unfold engine_status in Hbody. rewrite py_div_nonzero in Hbody by lra.
  simpl in Hbody. injection Hbody as <-. simpl. repeat split; reflexivity.
Qed.

(** X11: in a report built from the vessel's engines there is one entry per
    engine, in order; the entry's [isp] is the engine's specific impulse at
    the current static pressure in atmospheres, its [max_thrust] is the
    engine's vacuum thrust, and its [slt] is computed from the engine's
    [max_thrust] reading, not from [max_thrust_at] the current pressure. *)
Theorem report_reads_engines_at_pressure
    (calculate_delta_v burn_time_estimation : R -> R -> R -> result R)
    (payload_mass first_stage_mass second_stage_mass : R) (vessel : Vessel)
    (r : Report.t) :
  get_delta_v_status_of_vessel calculate_delta_v burn_time_estimation
    payload_mass first_stage_mass second_stage_mass vessel = Ok r ->
  length (Report.delta_v_list r) = length (parts_engines vessel) /\
  forall i d, nth_error (Report.delta_v_list r) i = Some d ->
  exists engine,
    nth_error (parts_engines vessel) i = Some engine /\
    Entry.stage d = KrpcEngine.stage engine /\
    Entry.isp d =
      KrpcEngine.specific_impulse_at engine (static_pressure vessel / 101325) /\
    Entry.max_thrust d = KrpcEngine.max_vacuum_thrust engine /\
    Entry.slt d = KrpcEngine.max_thrust engine / (Entry.start_mass d * 9.81) /\
    Entry.burned_mass d =
      sum_over total_resource_available (KrpcEngine.propellants engine).
Proof.
  unfold get_delta_v_status_of_vessel. intros H.
  apply bind_Ok in H as (statuses & Hs & Hr).
  unfold get_all_engines_status in Hs.
  apply for_each_append_Ok in Hs as (items & Hitems & Hall).
  simpl in Hitems. subst statuses.
  unfold get_delta_v_status in Hr. simpl engines in Hr.
  apply build_report_entry in Hr as (Hlen & Hent).
  rewrite length_map in Hlen.
  split; [rewrite Hlen; symmetry; exact (Forall2_length Hall) |].
  intros i d Hd.
  destruct (Hent i d Hd) as (e & He & Hbody).
  rewrite nth_error_map in He.
  destruct (nth_error items i) as [status |] eqn:Est; [| discriminate He].
  simpl in He. injection He as <-.
  assert (Heng : exists engine, nth_error (parts_engines vessel) i = Some engine).
  { destruct (nth_error (parts_engines vessel) i) as [engine |] eqn:E.
    - exists engine. reflexivity.
    - apply nth_error_None in E. rewrite (Forall2_length Hall) in E.
      assert (i < length items)%nat
        by (apply nth_error_Some; rewrite Est; discriminate).
      lia. }
  destruct Heng as (engine & Heng). exists engine. split; [exact Heng |].
  destruct (Forall2_nth_error _ _ _ Hall i engine Heng) as (st & Hst & Hbs).
  rewrite Est in Hst. injection Hst as <-.
  destruct (engine_status_Ok vessel engine)
    as (s & Hs & Hstage & Hmax & Hvac & _ & Hprop & _ & _ & Hisp).
  rewrite Hbs in Hs. injection Hs as <-.
  apply delta_v_entry_Ok in Hbody
    as (_ & _ & Hdstage & Hfuel & _ & Hdmax & _ & Hslt & Hdisp & _).
  unfold fuel_mass_of in Hfuel. rewrite py_sum_map in Hfuel.
  simpl in Hdstage, Hfuel, Hdmax, Hslt, Hdisp.
  rewrite Hdstage, Hdisp, Hdmax, Hslt, Hfuel, Hstage, Hisp, Hvac, Hmax, Hprop.
  repeat split; reflexivity.
Qed.

(** The report built from a vessel returns, with the helpers of the
    specification, when neither start mass is zero. *)
Lemma vessel_report_returns (payload_mass first_stage_mass second_stage_mass : R)
    (vessel : Vessel) :
  payload_mass + first_stage_mass <> 0 ->
  payload_mass + first_stage_mass + second_stage_mass <> 0 ->
  returns (get_delta_v_status_of_vessel BaseRocket.calculate_delta_v
             BaseRocket.burn_time_estimation payload_mass first_stage_mass
             second_stage_mass vessel).
Proof.
  intros H0 H1. unfold get_delta_v_status_of_vessel, get_all_engines_status.
  destruct (for_each_append_returns (engine_status vessel)
              (parts_engines vessel) []) as (statuses & ->).
  { intros engine _. destruct (engine_status_Ok vessel engine) as (s & Hs & _).
    exists s. exact Hs. }
  simpl. unfold get_delta_v_status. apply build_report_total.
  - discriminate.
  - unfold stages_start_mass. simpl. repeat constructor; assumption.
  - apply calculate_delta_v_returns.
  - apply burn_time_estimation_returns.
Qed.

Lemma get_all_engines_status_at_pressure_witness :
  exists statuses status,
    get_all_engines_status sample_krpc_vessel = Ok statuses /\
    nth_error statuses 1 = Some status /\
    EngineStatus.specific_impulse_at status = 320 - 20 * (101325 / 101325) /\
    EngineStatus.max_thrust_at status = 120000 - 20000 * (101325 / 101325).
Proof.
  destruct (get_all_engines_status_at_pressure sample_krpc_vessel)
    as (statuses & Hs & _ & _ & Hat).
  destruct (Hat 1%nat sample_krpc_engine eq_refl)
    as (status & Hst & _ & _ & _ & _ & Hmax & Hisp).
  exists statuses, status.
  split; [exact Hs | split; [exact Hst | split; [exact Hisp | exact Hmax]]].
Defined.

Lemma report_reads_engines_at_pressure_witness :
  exists r d,
    get_delta_v_status_of_vessel BaseRocket.calculate_delta_v
      BaseRocket.burn_time_estimation 1000 4000 2000 sample_krpc_vessel =
      Ok r /\
    nth_error (Report.delta_v_list r) 0 = Some d /\
    Entry.isp d = 320 - 20 * (101325 / 101325) /\
    Entry.max_thrust d = 120000.
Proof.
  destruct (vessel_report_returns 1000 4000 2000 sample_krpc_vessel)
    as (r & Hr); [lra | lra |].
  destruct (report_reads_engines_at_pressure _ _ _ _ _ _ r Hr) as (Hlen & Hent).
  destruct (Report.delta_v_list r) as [| d ds] eqn:El; [discriminate Hlen |].
  destruct (Hent 0%nat d eq_refl) as (engine & Heng & _ & Hisp & Hmax & _).
  injection Heng as <-.
  exists r, d. rewrite El.
  split; [exact Hr | split; [reflexivity | split; [exact Hisp | exact Hmax]]].
Defined.

(** The body of the loop of [get_satellite_bus_status] returns, with these
    values. *)
Lemma part_info_Ok (part : Part.t) :
  exists info,
    part_info part = Ok info /\
    PartInfo.name info = Part.name part /\
    PartInfo.title info = Part.title part /\
    PartInfo.shielded info = Part.shielded part /\
    PartInfo.temperature info = Part.temperature part /\
    PartInfo.max_temperature info = Part.max_temperature part /\
    (Part.max_temperature part = 0 -> PartInfo.thermal_percentage info = 0) /\
    (Part.max_temperature part <> 0 ->
     PartInfo.thermal_percentage info =
       Part.temperature part / Part.max_temperature part * 100) /\
    (In "ElectricCharge"%string (Resources.names (Part.resources part)) ->
     PartInfo.current_charge info =
       Resources.amount (Part.resources part) "ElectricCharge"%string /\
     PartInfo.max_charge info =
       Resources.max (Part.resources part) "ElectricCharge"%string) /\
    (~ In "ElectricCharge"%string (Resources.names (Part.resources part)) ->
     PartInfo.current_charge info = 0 /\ PartInfo.max_charge info = 0).
Proof.
  unfold part_info, py_truthy.
  assert (Hin : py_in "ElectricCharge"%string
                  (Resources.names (Part.resources part)) = true <->
                In "ElectricCharge"%string
                  (Resources.names (Part.resources part))).
  { unfold py_in. rewrite existsb_exists. split.
    - intros (x & Hx & Heq). apply String.eqb_eq in Heq. subst x. exact Hx.
    - intros H. exists "ElectricCharge"%string.
      split; [exact H | apply String.eqb_refl]. }
  assert (Hcharge : forall (q : String.string -> R) (c : R),
            c = (if py_in "ElectricCharge"%string
                      (Resources.names (Part.resources part))
                 then q "ElectricCharge"%string else 0) ->
            (In "ElectricCharge"%string
               (Resources.names (Part.resources part)) ->
             c = q "ElectricCharge"%string) /\
            (~ In "ElectricCharge"%string
                 (Resources.names (Part.resources part)) -> c = 0)).
  { intros q c ->.
    destruct (py_in "ElectricCharge"%string
                (Resources.names (Part.resources part))) eqn:Ein.
    - split; [reflexivity |]. intros H. exfalso. apply H, Hin. reflexivity.
    - split; [| reflexivity]. intros H. apply Hin in H. discriminate H. }
  destruct (Req_dec_T (Part.max_temperature part) 0) as [Hz | Hnz].
  - simpl. eexists. split; [reflexivity |]. simpl.
    destruct (Hcharge (Resources.amount (Part.resources part)) _ eq_refl)
      as (Ha1 & Ha0).
    destruct (Hcharge (Resources.max (Part.resources part)) _ eq_refl)
      as (Hm1 & Hm0).
    repeat split; try reflexivity; try contradiction; auto.
  - rewrite py_div_nonzero by exact Hnz. simpl.
    eexists. split; [reflexivity |]. simpl.
    destruct (Hcharge (Resources.amount (Part.resources part)) _ eq_refl)
      as (Ha1 & Ha0).
    destruct (Hcharge (Resources.max (Part.resources part)) _ eq_refl)
      as (Hm1 & Hm0).
    repeat split; try reflexivity; try contradiction; auto.
Qed.

(** The status of a non-empty list of parts is a list with one dict per
    part. *)
Lemma get_satellite_bus_status_list (part : Part.t) (rest : list Part.t) :
  exists parts_info,
    get_satellite_bus_status (part :: rest) = Ok (PartsInfo parts_info) /\
    length parts_info = length (part :: rest).
Proof.
  unfold get_satellite_bus_status.
  destruct (for_each_append_returns part_info (part :: rest) [])
    as (infos & Hinfos).
  { intros x _. destruct (part_info_Ok x) as (info & Hi & _).
    exists info. exact Hi. }
  rewrite Hinfos. simpl.
  apply for_each_append_Ok in Hinfos as (items & -> & Hall). simpl.
  pose proof (Forall2_length Hall) as Hlen.
  destruct items as [| item items]; [discriminate Hlen |].
  exists (item :: items). split; [reflexivity | symmetry; exact Hlen].
Qed.

(** X12: [get_satellite_bus_status] never raises, also for a part whose
    maximum temperature reads [0]; without parts it returns the dict with
    the error [Parts not found], and otherwise the list of one dict per
    part. *)
Theorem get_satellite_bus_status_shape (parts : list Part.t) :
  (parts = [] /\
   get_satellite_bus_status parts = Ok (ErrorDict "Parts not found"%string)) \/
  (parts <> [] /\
   exists parts_info,
     get_satellite_bus_status parts = Ok (PartsInfo parts_info) /\
     length parts_info = length parts).
Proof.
  destruct parts as [| part rest].
  - left. split; reflexivity.
  - right. split; [discriminate |].
    apply get_satellite_bus_status_list.
Qed.

(** X13: in a returned list the dict at position [i] describes the part at
    position [i]: it copies the part's name, title, shield flag and
    temperatures; its thermal percentage is [0] for a maximum temperature
    of [0] and [temperature / max_temperature * 100] otherwise; its two
    charges are the amount and the maximum of [ElectricCharge] when the
    part has that resource, and [0] when it has not. *)
Theorem part_info_of_part (parts : list Part.t)
    (parts_info : list PartInfo.t) :
  get_satellite_bus_status parts = Ok (PartsInfo parts_info) ->
  forall i part, nth_error parts i = Some part ->
  exists info,
    nth_error parts_info i = Some info /\
    PartInfo.name info = Part.name part /\
    PartInfo.title info = Part.title part /\
    PartInfo.shielded info = Part.shielded part /\
    PartInfo.temperature info = Part.temperature part /\
    PartInfo.max_temperature info = Part.max_temperature part /\
    (Part.max_temperature part = 0 -> PartInfo.thermal_percentage info = 0) /\
    (Part.max_temperature part <> 0 ->
     PartInfo.thermal_percentage info =
       Part.temperature part / Part.max_temperature part * 100) /\
    (In "ElectricCharge"%string (Resources.names (Part.resources part)) ->
     PartInfo.current_charge info =
       Resources.amount (Part.resources part) "ElectricCharge"%string /\
     PartInfo.max_charge info =
       Resources.max (Part.resources part) "ElectricCharge"%string) /\
    (~ In "ElectricCharge"%string (Resources.names (Part.resources part)) ->
     PartInfo.current_charge info = 0 /\ PartInfo.max_charge info = 0).
Proof.
  unfold get_satellite_bus_status. intros H i part Hpart.
  apply bind_Ok in H as (infos & Hinfos & Hret).
  apply for_each_append_Ok in Hinfos as (items & Hitems & Hall).
  simpl in Hitems. subst infos.
  destruct items as [| item items]; [discriminate Hret |].
  injection Hret as <-.
  destruct (Forall2_nth_error _ _ _ Hall i part Hpart) as (info & Hinfo & Hbody).
  exists info. split; [exact Hinfo |].
  destruct (part_info_Ok part) as (info' & Hbody' & Hfacts).
  rewrite Hbody in Hbody'. injection Hbody' as <-. exact Hfacts.
Qed.

(** X14: when every part's temperature is between [0] and its maximum
    temperature, every thermal percentage of a returned list is between [0]
    and [100]. *)
Theorem thermal_percentage_bounds (parts : list Part.t)
    (parts_info : list PartInfo.t) :
  (forall part, In part parts ->
     0 <= Part.temperature part <= Part.max_temperature part) ->
  get_satellite_bus_status parts = Ok (PartsInfo parts_info) ->
  forall info, In info parts_info ->
  0 <= PartInfo.thermal_percentage info <= 100.
Proof.
  unfold get_satellite_bus_status. intros Hrange H info Hin.
  apply bind_Ok in H as (infos & Hinfos & Hret).
  apply for_each_append_Ok in Hinfos as (items & Hitems & Hall).
  simpl in Hitems. subst infos.
  destruct items as [| item items]; [discriminate Hret |].
  injection Hret as <-.
  destruct (Forall2_In_r _ _ _ Hall info Hin) as (part & Hpart & Hbody).
  destruct (part_info_Ok part)
    as (info' & Hbody' & _ & _ & _ & _ & _ & Hzero & Hnonzero & _).
  rewrite Hbody in Hbody'. injection Hbody' as <-.
  specialize (Hrange part Hpart).
  destruct (Req_dec_T (Part.max_temperature part) 0) as [Hz | Hnz].
  - rewrite (Hzero Hz). lra.
  - rewrite (Hnonzero Hnz).
    assert (Hpos : 0 < Part.max_temperature part) by lra.
    assert (Hinv : 0 < / Part.max_temperature part)
      by (apply Rinv_0_lt_compat; exact Hpos).
    assert (Hq : 0 <= Part.temperature part / Part.max_temperature part <= 1).
    { unfold Rdiv. split.
      - apply Rmult_le_pos; lra.
      - apply Rmult_le_reg_r with (r := Part.max_temperature part);
          [exact Hpos |].
        rewrite Rmult_assoc, Rinv_l by exact Hnz. lra. }
    lra.
Qed.

(** The satellite-bus status of the battery and the part whose maximum
    temperature reads [0]. *)
Lemma sample_bus_status :
  exists parts_info,
    get_satellite_bus_status [sample_battery; sample_cold_part] =
    Ok (PartsInfo parts_info).
Proof.
  destruct (get_satellite_bus_status_list sample_battery [sample_cold_part])
    as (infos & H & _).
  exists infos. exact H.
Qed.

Lemma part_info_of_part_witness :
  exists parts_info battery cold,
    get_satellite_bus_status [sample_battery; sample_cold_part] =
      Ok (PartsInfo parts_info) /\
    nth_error parts_info 0 = Some battery /\
    nth_error parts_info 1 = Some cold /\
    PartInfo.thermal_percentage battery = 300 / 1200 * 100 /\
    PartInfo.current_charge battery = 80 /\
    PartInfo.max_charge battery = 100 /\
    PartInfo.thermal_percentage cold = 0 /\
    PartInfo.current_charge cold = 0.
Proof.
  destruct sample_bus_status as (infos & Hs).
  destruct (part_info_of_part _ infos Hs 0%nat sample_battery eq_refl)
    as (battery & Hb & _ & _ & _ & _ & _ & _ & Hpct & Hcharge & _).
  destruct (part_info_of_part _ infos Hs 1%nat sample_cold_part eq_refl)
    as (cold & Hc & _ & _ & _ & _ & _ & Hzero & _ & _ & Hnone).
  exists infos, battery, cold.
  split; [exact Hs | split; [exact Hb | split; [exact Hc |]]].
  destruct Hcharge as (Hcur & Hmax); [simpl; left; reflexivity |].
  destruct Hnone as (Hcur0 & _); [simpl; intros H; exact H |].
  split; [apply Hpct; simpl; lra |].
  split; [exact Hcur | split; [exact Hmax |]].
  split; [apply Hzero; reflexivity | exact Hcur0].
Defined.

Lemma thermal_percentage_bounds_witness :
  exists parts_info,
    get_satellite_bus_status [sample_battery; sample_cold_part] =
      Ok (PartsInfo parts_info) /\
    forall info, In info parts_info ->
      0 <= PartInfo.thermal_percentage info <= 100.
Proof.
  destruct sample_bus_status as (infos & Hs).
  exists infos. split; [exact Hs |].
  apply (thermal_percentage_bounds [sample_battery; sample_cold_part] infos);
    [| exact Hs].
  intros part [<- | [<- | []]]; simpl; lra.
Defined.
